(** * OTA update from an API onto an ESP32: the update coordination core

    A shallow embedding of [esp32.ino].  The sketch runs two FreeRTOS tasks:

    - [WiFiUpdaterLoop] calls [CheckAPIForUpdates] (the fetch agent), which
      asks the update URL for a firmware image and stores it on the SD card
      as [/update.bin];
    - [SDUpdaterLoop] calls [UpdateFirmwareFromSD] (the apply agent), which
      flashes [/update.bin] through the [Update] library and restarts.

    The two tasks share the globals [is_downloading] and [is_updating] and
    the SD card.  The libraries the sketch calls ([SD], [HTTPClient],
    [Update], [ESP], [Serial]) are hardware drivers; each call is a
    primitive of a small monad whose outcome is read from an environment
    record, and every call leaves an event in the run's trace. *)

From stdpp Require Import base option list strings gmap pretty.
From Stdlib Require Import Init.Byte ZArith.

Local Open Scope string_scope.
Local Open Scope list_scope.

(** ** Shared state *)

(** The two global flags of the sketch (lines 25-26) and the SD card, a map
    from paths to file contents. *)
Record World := mkWorld {
  is_downloading : bool;
  is_updating : bool;
  sd_card : gmap string (list byte)
}.

(** After power-on or [ESP.restart()] the globals have their initialisers;
    the card keeps what was on it. *)
Definition boot_world (card : gmap string (list byte)) : World :=
  {| is_downloading := false; is_updating := false; sd_card := card |}.

Definition set_is_downloading (b : bool) (w : World) : World :=
  {| is_downloading := b; is_updating := is_updating w; sd_card := sd_card w |}.

Definition set_is_updating (b : bool) (w : World) : World :=
  {| is_downloading := is_downloading w; is_updating := b; sd_card := sd_card w |}.

Definition set_sd_card (card : gmap string (list byte)) (w : World) : World :=
  {| is_downloading := is_downloading w; is_updating := is_updating w;
     sd_card := card |}.

(** ** Constants of the sketch and of the libraries it includes *)

Definition updateURL : string := "http://ota-demo-74718.web.app/firmware.bin".
Definition SD_CS_PIN : nat := 5.
Definition SD_Timeout : Z := 60000.
Definition WiFi_Timeout : Z := 3600000.

(** Codes of [HTTPClient.h]. *)
Definition HTTP_CODE_OK : Z := 200.
Definition HTTP_CODE_ALREADY_REPORTED : Z := 208.
Definition HTTP_CODE_MOVED_PERMANENTLY : Z := 301.

(** Modes of [FS.h]: [FILE_READ] is "r", [FILE_WRITE] is "w". *)
Inductive OpenMode := FILE_READ | FILE_WRITE.

(** ** Events and the environment *)

Inductive Event :=
| EvPrint (text : string)
| EvPrintln (text : string)
| EvSetDownloading (b : bool)
| EvSetUpdating (b : bool)
| EvSdBegin (pin : nat) (ok : bool)
| EvSdOpen (path : string) (mode : OpenMode) (ok : bool)
| EvFileWrite (path : string) (data : list byte)
| EvFileClose (path : string)
| EvSdRemove (path : string)
| EvHttpBegin (url : string) (ok : bool)
| EvHttpGet (code : Z)
| EvHttpEnd
| EvUpdateBegin (size : nat) (ok : bool)
| EvUpdateWriteStream (data : list byte) (written : nat)
| EvUpdateEnd (ok : bool)
| EvUpdateIsFinished (finished : bool)
| EvUpdateGetError (code : nat)
| EvRestart.

(** What the hardware and the network answer during one run of an agent.
    [stream_arrivals] gives, for each successive [readBytes] call on the
    response stream, how many bytes arrive before the call times out; a
    call after the last entry times out with nothing. *)
Record Env := mkEnv {
  sd_begin_ok : bool;
  sd_open_write_ok : bool;
  http_begin_ok : bool;
  http_get_code : Z;
  http_body : list byte;
  stream_arrivals : list nat;
  update_begin_ok : bool;
  update_written : nat;
  update_end_ok : bool;
  update_is_finished : bool;
  update_error : nat
}.

(** ** The monad: environment, state, trace, and restart *)

(** A computation either returns a value or restarts the chip; in both
    cases it leaves a world and the events it produced. *)
Inductive Result (A : Type) :=
| Returned (a : A) (w : World) (evs : list Event)
| Restarted (w : World) (evs : list Event).
Arguments Returned {A} a w evs.
Arguments Restarted {A} w evs.

Definition M (A : Type) : Type := Env → World → Result A.

Definition result_world {A} (r : Result A) : World :=
  match r with Returned _ w _ => w | Restarted w _ => w end.

Definition result_events {A} (r : Result A) : list Event :=
  match r with Returned _ _ evs => evs | Restarted _ evs => evs end.

Definition restarted {A} (r : Result A) : bool :=
  match r with Returned _ _ _ => false | Restarted _ _ => true end.

Definition prepend_events {A} (evs : list Event) (r : Result A) : Result A :=
  match r with
  | Returned a w evs' => Returned a w (evs ++ evs')
  | Restarted w evs' => Restarted w (evs ++ evs')
  end.

#[export] Instance M_ret : MRet M := λ A a _ w, Returned a w [].

#[export] Instance M_bind : MBind M := λ A B f m env w,
  match m env w with
  | Returned a w' evs => prepend_events evs (f a env w')
  | Restarted w' evs => Restarted w' evs
  end.

(** *** Globals *)

Definition read_is_downloading : M bool := λ _ w, Returned (is_downloading w) w [].
Definition read_is_updating : M bool := λ _ w, Returned (is_updating w) w [].

Definition write_is_downloading (b : bool) : M unit :=
  λ _ w, Returned () (set_is_downloading b w) [EvSetDownloading b].

Definition write_is_updating (b : bool) : M unit :=
  λ _ w, Returned () (set_is_updating b w) [EvSetUpdating b].

(** *** [Serial] *)

Definition Serial_print (text : string) : M unit :=
  λ _ w, Returned () w [EvPrint text].

Definition Serial_println (text : string) : M unit :=
  λ _ w, Returned () w [EvPrintln text].

(** *** [SD] and [File] *)

(** Modelled from the spec: the [SD] library is not part of the sketch;
    section 6 gives it as the storage capability [mount() -> bool].  The
    environment says whether the mount succeeds. *)
Definition SD_begin (pin : nat) : M bool :=
  λ env w, Returned (sd_begin_ok env) w [EvSdBegin pin (sd_begin_ok env)].

(** Modelled from the spec: [SD.open] is library code; section 6 gives
    [open(path, mode) -> FileHandle|None] and section 4.2 says that opening
    for writing truncates any prior content, as mode "w" of [FS.h] does.
    A [File] is its path on the card; it is falsy ([None]) when the open
    failed.  Reading needs the file to exist.  Writing creates the file or
    truncates it, unless the card refuses. *)
Definition SD_open (path : string) (mode : OpenMode) : M (option string) :=
  λ env w,
    match mode with
    | FILE_READ =>
        match sd_card w !! path with
        | Some _ => Returned (Some path) w [EvSdOpen path FILE_READ true]
        | None => Returned None w [EvSdOpen path FILE_READ false]
        end
    | FILE_WRITE =>
        if sd_open_write_ok env
        then Returned (Some path) (set_sd_card (<[path := []]> (sd_card w)) w)
                      [EvSdOpen path FILE_WRITE true]
        else Returned None w [EvSdOpen path FILE_WRITE false]
    end.

Definition file_content (w : World) (file : string) : list byte :=
  default [] (sd_card w !! file).

(** Modelled from the spec: [size(handle) -> int], [write(handle, bytes)],
    [close(handle)] and [remove(path)] of the storage capability of section
    6.  A write appends to the file, a remove deletes it. *)
Definition File_size (file : string) : M nat :=
  λ _ w, Returned (length (file_content w file)) w [].

Definition File_write (file : string) (data : list byte) : M unit :=
  λ _ w, Returned () (set_sd_card (alter (λ c, c ++ data) file (sd_card w)) w)
                  [EvFileWrite file data].

Definition File_close (file : string) : M unit :=
  λ _ w, Returned () w [EvFileClose file].

Definition SD_remove (path : string) : M unit :=
  λ _ w, Returned () (set_sd_card (delete path (sd_card w)) w) [EvSdRemove path].

(** *** [HTTPClient] and the response stream *)

(** Modelled from the spec: the network capability of section 6; the
    environment gives the outcome of the connection and the status code. *)
Definition HTTP_begin (url : string) : M bool :=
  λ env w, Returned (http_begin_ok env) w [EvHttpBegin url (http_begin_ok env)].

Definition HTTP_GET : M Z :=
  λ env w, Returned (http_get_code env) w [EvHttpGet (http_get_code env)].

Definition HTTP_end : M unit := λ _ w, Returned () w [EvHttpEnd].

(** Modelled from the spec: [streamBody() -> sequence of byte chunks] of
    section 6, read through [Stream::readBytes], which fills the buffer
    until [len] bytes are read or the read times out.  This is
    [stream->readBytes(buffer, len)] when [avail] bytes arrive before the
    timeout: the bytes put in the buffer and the rest of the stream. *)
Definition readBytes (avail : nat) (stream : list byte) (len : nat)
  : list byte * list byte :=
  (take (avail `min` len) stream, drop (avail `min` len) stream).

(** *** [Update] and [ESP] *)

(** Modelled from the spec: the flash-write capability of section 6,
    [begin(size) -> bool], [writeStream(source) -> bytesWritten],
    [end() -> bool], [isFinished() -> bool] and [lastError() -> code]; the
    environment gives each answer. *)
Definition Update_begin (size : nat) : M bool :=
  λ env w, Returned (update_begin_ok env) w
                    [EvUpdateBegin size (update_begin_ok env)].

Definition Update_writeStream (source : string) : M nat :=
  λ env w, Returned (update_written env) w
                    [EvUpdateWriteStream (file_content w source) (update_written env)].

Definition Update_end : M bool :=
  λ env w, Returned (update_end_ok env) w [EvUpdateEnd (update_end_ok env)].

Definition Update_isFinished : M bool :=
  λ env w, Returned (update_is_finished env) w
                    [EvUpdateIsFinished (update_is_finished env)].

Definition Update_getError : M nat :=
  λ env w, Returned (update_error env) w [EvUpdateGetError (update_error env)].

(** Modelled from the spec: the restart capability of section 6;
    [ESP.restart()] does not return. *)
Definition ESP_restart {A} : M A := λ _ w, Restarted w [EvRestart].

(** ** The sketch *)

(** [performUpdate], lines 36-58. *)
Definition performUpdate (updateSource : string) (updateSize : nat) : M unit :=
  ok ← Update_begin updateSize;
  if ok : bool then
    written ← Update_writeStream updateSource;
    (if bool_decide (written = updateSize)
     then Serial_println ("Written : " +:+ pretty written +:+ " successfully")
     else Serial_println ("Written only : " +:+ pretty written +:+ "/"
                          +:+ pretty updateSize +:+ ". Retry?"));;
    ended ← Update_end;
    if ended : bool then
      Serial_println "OTA done!";;
      finished ← Update_isFinished;
      if finished : bool then
        Serial_println "Update successfully completed. Rebooting.";;
        ESP_restart
      else
        Serial_println "Update not finished? Something went wrong!"
    else
      err ← Update_getError;
      Serial_println ("Error Occurred. Error #: " +:+ pretty err)
  else
    Serial_println "Not enough space to begin OTA".

(** [UpdateFirmwareFromSD], lines 61-93. *)
Definition UpdateFirmwareFromSD : M unit :=
  downloading ← read_is_downloading;
  if downloading : bool then
    Serial_println "Still downloading new firmware."
  else
    mounted ← SD_begin SD_CS_PIN;
    if negb mounted then
      Serial_println "Failed to initialize SD card."
    else
      opened ← SD_open "/update.bin" FILE_READ;
      match opened with
      | None => Serial_println "No update found."
      | Some binFile =>
          write_is_updating true;;
          Serial_println "SD card initialized successfully.";;
          updateSize ← File_size binFile;
          (if bool_decide (0 < updateSize) then
             Serial_println "Try to start update";;
             performUpdate binFile updateSize
           else
             Serial_println "Error, file is empty");;
          File_close binFile;;
          SD_remove "/update.bin";;
          write_is_updating false
      end.

(** The copy loop of lines 141-145.  Each round is one [readBytes] call and
    the test of its result; [arrivals] holds one entry per call, so the
    recursion follows it.  The source reads once before the loop and once
    at the end of the body, which is the same sequence of calls. *)
Definition bufferSize : nat := 1024.

Fixpoint copy_stream (file : string) (arrivals : list nat) (stream : list byte)
  : M unit :=
  match arrivals with
  | [] => mret ()
  | avail :: arrivals' =>
      let '(buffer, stream') := readBytes avail stream bufferSize in
      if bool_decide (0 < length buffer) then
        File_write file buffer;;
        copy_stream file arrivals' stream'
      else mret ()
  end.

(** [http.getStreamPtr()]: the body of the response and its arrivals. *)
Definition HTTP_getStreamPtr : M (list nat * list byte) :=
  λ env w, Returned (stream_arrivals env, http_body env) w [].

(** [CheckAPIForUpdates], lines 107-163.  The branch on [httpCode] yields
    [true] when it left the function through the [return] of line 133;
    otherwise line 159 follows it. *)
Definition CheckAPIForUpdates : M unit :=
  updating ← read_is_updating;
  if updating : bool then
    Serial_println "Still updating."
  else
    Serial_println "Checking for updates...";;
    connected ← HTTP_begin updateURL;
    if connected : bool then
      httpCode ← HTTP_GET;
      returned ←
        (if bool_decide (httpCode = HTTP_CODE_ALREADY_REPORTED) then
           Serial_println "Firmware already up to date.";;
           mret false
         else if bool_decide (httpCode = HTTP_CODE_OK)
                 || bool_decide (httpCode = HTTP_CODE_MOVED_PERMANENTLY) then
           write_is_downloading true;;
           Serial_println "Update found!";;
           let fileName := "/update.bin" in
           mounted ← SD_begin SD_CS_PIN;
           if negb mounted then
             Serial_println "Failed to initialize SD card.";;
             write_is_downloading false;;
             mret true
           else
             opened ← SD_open fileName FILE_WRITE;
             match opened with
             | Some file =>
                 '(arrivals, stream) ← HTTP_getStreamPtr;
                 copy_stream file arrivals stream;;
                 File_close file;;
                 Serial_println "File saved successfully."
             | None =>
                 Serial_print "Error creating file: ";;
                 Serial_println fileName
             end;;
             HTTP_end;;
             mret false
         else
           Serial_print "Request canceled. HTTP Code : ";;
           Serial_println (pretty httpCode);;
           mret false);
      if returned : bool then mret () else write_is_downloading false
    else
      Serial_println "HTTP connection error!".

(** ** The two tasks, statement by statement

    [WiFiUpdaterLoop] and [SDUpdaterLoop] (lines 205-217) run on the same
    core with the same priority, so the scheduler may switch between them
    at any blocking call or tick.  A program counter per task marks where
    the task stands; one step runs the statements up to the next mark. *)

Inductive ApplyPC :=
| A_idle                        (* in [delay(SD_Timeout)]; next is line 62 *)
| A_mount                       (* before line 67 *)
| A_open                        (* before line 72 *)
| A_gate (binFile : string)     (* before line 78 *)
| A_flash (binFile : string)    (* before line 79, [is_updating] is set *)
| A_cleanup (binFile : string)  (* before line 89 *)
| A_release.                    (* before line 92 *)

Inductive FetchPC :=
| F_idle                        (* in [delay(WiFi_Timeout)]; next is line 108 *)
| F_request                     (* before line 113 *)
| F_gate                        (* before line 125 *)
| F_mount                       (* before line 127, [is_downloading] is set *)
| F_download                    (* before line 136 *)
| F_release.                    (* before line 159 *)

Definition apply_step (pc : ApplyPC) : M ApplyPC :=
  match pc with
  | A_idle =>
      downloading ← read_is_downloading;
      if downloading : bool then
        Serial_println "Still downloading new firmware.";; mret A_idle
      else mret A_mount
  | A_mount =>
      mounted ← SD_begin SD_CS_PIN;
      if negb mounted then
        Serial_println "Failed to initialize SD card.";; mret A_idle
      else mret A_open
  | A_open =>
      opened ← SD_open "/update.bin" FILE_READ;
      match opened with
      | None => Serial_println "No update found.";; mret A_idle
      | Some binFile => mret (A_gate binFile)
      end
  | A_gate binFile =>
      write_is_updating true;; mret (A_flash binFile)
  | A_flash binFile =>
      Serial_println "SD card initialized successfully.";;
      updateSize ← File_size binFile;
      (if bool_decide (0 < updateSize) then
         Serial_println "Try to start update";;
         performUpdate binFile updateSize
       else
         Serial_println "Error, file is empty");;
      mret (A_cleanup binFile)
  | A_cleanup binFile =>
      File_close binFile;;
      SD_remove "/update.bin";;
      mret A_release
  | A_release =>
      write_is_updating false;; mret A_idle
  end.

Definition fetch_step (pc : FetchPC) : M FetchPC :=
  match pc with
  | F_idle =>
      updating ← read_is_updating;
      if updating : bool then
        Serial_println "Still updating.";; mret F_idle
      else mret F_request
  | F_request =>
      Serial_println "Checking for updates...";;
      connected ← HTTP_begin updateURL;
      if connected : bool then
        httpCode ← HTTP_GET;
        if bool_decide (httpCode = HTTP_CODE_ALREADY_REPORTED) then
          Serial_println "Firmware already up to date.";; mret F_release
        else if bool_decide (httpCode = HTTP_CODE_OK)
                || bool_decide (httpCode = HTTP_CODE_MOVED_PERMANENTLY) then
          mret F_gate
        else
          Serial_print "Request canceled. HTTP Code : ";;
          Serial_println (pretty httpCode);;
          mret F_release
      else
        Serial_println "HTTP connection error!";; mret F_idle
  | F_gate =>
      write_is_downloading true;; mret F_mount
  | F_mount =>
      Serial_println "Update found!";;
      mounted ← SD_begin SD_CS_PIN;
      if negb mounted then
        Serial_println "Failed to initialize SD card.";;
        write_is_downloading false;;
        mret F_idle
      else mret F_download
  | F_download =>
      let fileName := "/update.bin" in
      opened ← SD_open fileName FILE_WRITE;
      match opened with
      | Some file =>
          '(arrivals, stream) ← HTTP_getStreamPtr;
          copy_stream file arrivals stream;;
          File_close file;;
          Serial_println "File saved successfully."
      | None =>
          Serial_print "Error creating file: ";;
          Serial_println fileName
      end;;
      HTTP_end;;
      mret F_release
  | F_release =>
      write_is_downloading false;; mret F_idle
  end.

(** One task running alone: steps until the task is idle again. *)
Fixpoint apply_steps (n : nat) (pc : ApplyPC) : M unit :=
  match n with
  | 0 => mret ()
  | S n' =>
      pc' ← apply_step pc;
      match pc' with A_idle => mret () | _ => apply_steps n' pc' end
  end.

Fixpoint fetch_steps (n : nat) (pc : FetchPC) : M unit :=
  match n with
  | 0 => mret ()
  | S n' =>
      pc' ← fetch_step pc;
      match pc' with F_idle => mret () | _ => fetch_steps n' pc' end
  end.

(** The system: the shared world and where each task stands. *)
Record Sys := mkSys {
  world : World;
  apply_pc : ApplyPC;
  fetch_pc : FetchPC
}.

(** [setup] (lines 165-199) creates the two tasks; both start idle. *)
Definition boot (card : gmap string (list byte)) : Sys :=
  {| world := boot_world card; apply_pc := A_idle; fetch_pc := F_idle |}.

(** The scheduler picks a task; the task runs one step against what the
    environment answers.  [ESP.restart()] boots the chip again with the
    card as it is. *)
Inductive Task := ApplyTask | FetchTask.

Definition sys_step (task : Task) (env : Env) (s : Sys) : Sys :=
  match task with
  | ApplyTask =>
      match apply_step (apply_pc s) env (world s) with
      | Returned pc' w' _ => {| world := w'; apply_pc := pc'; fetch_pc := fetch_pc s |}
      | Restarted w' _ => boot (sd_card w')
      end
  | FetchTask =>
      match fetch_step (fetch_pc s) env (world s) with
      | Returned pc' w' _ => {| world := w'; apply_pc := apply_pc s; fetch_pc := pc' |}
      | Restarted w' _ => boot (sd_card w')
      end
  end.

Definition run_schedule (schedule : list (Task * Env)) (s : Sys) : Sys :=
  foldl (λ s' '(task, env), sys_step task env s') s schedule.

(** The states of all interleavings, from power-on with any card. *)
Inductive reachable : Sys → Prop :=
| reachable_boot card : reachable (boot card)
| reachable_step s task env : reachable s → reachable (sys_step task env s).

(** The apply task is in its critical section from the assignment of line
    78 to the one of line 92, the fetch task from line 125 to the end of
    the download. *)
Definition apply_in_critical (pc : ApplyPC) : bool :=
  match pc with
  | A_flash _ | A_cleanup _ | A_release => true
  | _ => false
  end.

Definition fetch_in_critical (pc : FetchPC) : bool :=
  match pc with
  | F_mount | F_download => true
  | _ => false
  end.

(** Where the gate flags stand at each program counter. *)
Definition apply_gate_ok (pc : ApplyPC) (w : World) : Prop :=
  is_updating w = apply_in_critical pc.

Definition fetch_gate_ok (pc : FetchPC) (w : World) : Prop :=
  match pc with
  | F_idle | F_request | F_gate => is_downloading w = false
  | F_mount | F_download => is_downloading w = true
  | F_release => True
  end.

Definition gates_match (s : Sys) : Prop :=
  apply_gate_ok (apply_pc s) (world s) ∧ fetch_gate_ok (fetch_pc s) (world s).

(** ** Vocabulary of the properties *)

Definition writes_gate (e : Event) : bool :=
  match e with EvSetDownloading _ | EvSetUpdating _ => true | _ => false end.

Definition is_flash_op (e : Event) : bool :=
  match e with
  | EvUpdateBegin _ _ | EvUpdateWriteStream _ _ | EvUpdateEnd _
  | EvUpdateIsFinished _ | EvUpdateGetError _ => true
  | _ => false
  end.

Definition is_network_request (e : Event) : bool :=
  match e with EvHttpBegin _ _ | EvHttpGet _ | EvHttpEnd => true | _ => false end.

Definition is_storage_write (e : Event) : bool :=
  match e with
  | EvSdOpen _ FILE_WRITE _ | EvFileWrite _ _ | EvSdRemove _ => true
  | _ => false
  end.

(** Events can be compared, so membership in a trace can be computed. *)
#[export] Instance byte_eq_dec : EqDecision byte := Byte.byte_eq_dec.

#[export] Instance OpenMode_eq_dec : EqDecision OpenMode.
Proof. solve_decision. Defined.

#[export] Instance Event_eq_dec : EqDecision Event.
Proof. solve_decision. Defined.

(** The bytes a run wrote to files, in order. *)
Definition written_data (evs : list Event) : list byte :=
  flat_map (λ e, match e with EvFileWrite _ data => data | _ => [] end) evs.

(** A write goes to the staging file and carries between 1 and 1024 bytes. *)
Definition bounded_write (e : Event) : Prop :=
  match e with
  | EvFileWrite path data => path = "/update.bin" ∧ 0 < length data ≤ 1024
  | _ => True
  end.

(** The buffers the copy loop writes, one per round. *)
Fixpoint stream_chunks (arrivals : list nat) (stream : list byte)
  : list (list byte) :=
  match arrivals with
  | [] => []
  | avail :: arrivals' =>
      let '(buffer, stream') := readBytes avail stream bufferSize in
      if bool_decide (0 < length buffer)
      then buffer :: stream_chunks arrivals' stream'
      else []
  end.

(** How many bytes the arrivals let the loop read before a call times out
    empty-handed.  A download is complete when this covers the body. *)
Fixpoint deliverable (arrivals : list nat) : nat :=
  match arrivals with
  | [] => 0
  | avail :: arrivals' =>
      if bool_decide (0 < avail)
      then avail `min` bufferSize + deliverable arrivals'
      else 0
  end.

(** Every [is_updating = true] in a trace comes after a successful open of
    the staged image. *)
Fixpoint gate_after_open (opened : bool) (evs : list Event) : bool :=
  match evs with
  | [] => true
  | EvSdOpen path FILE_READ true :: evs' =>
      gate_after_open (opened || bool_decide (path = "/update.bin")) evs'
  | EvSetUpdating true :: evs' => opened && gate_after_open opened evs'
  | _ :: evs' => gate_after_open opened evs'
  end.

(** A fetch run that was denied entry: it returns with the world as it
    was, without a network request or a storage write. *)
Definition fetch_entry_denied (env : Env) (w : World) : Prop :=
  ∃ evs, CheckAPIForUpdates env w = Returned () w evs ∧
         Forall (λ e, is_network_request e = false ∧ is_storage_write e = false) evs.

(** ** Sample environments, cards and schedules *)

Definition firmware : list byte := [x01; x02; x03].

(** Everything succeeds; the server answers 200 with [firmware]. *)
Definition env_ok : Env :=
  {| sd_begin_ok := true; sd_open_write_ok := true;
     http_begin_ok := true; http_get_code := 200;
     http_body := firmware; stream_arrivals := [2; 5];
     update_begin_ok := true; update_written := 3;
     update_end_ok := true; update_is_finished := true; update_error := 0 |}.

(** The flash primitive takes one byte only. *)
Definition env_short_write : Env :=
  {| sd_begin_ok := true; sd_open_write_ok := true;
     http_begin_ok := true; http_get_code := 200;
     http_body := firmware; stream_arrivals := [2; 5];
     update_begin_ok := true; update_written := 1;
     update_end_ok := true; update_is_finished := true; update_error := 0 |}.

(** [SD.begin] fails. *)
Definition env_mount_fails : Env :=
  {| sd_begin_ok := false; sd_open_write_ok := true;
     http_begin_ok := true; http_get_code := 200;
     http_body := firmware; stream_arrivals := [2; 5];
     update_begin_ok := true; update_written := 3;
     update_end_ok := true; update_is_finished := true; update_error := 0 |}.

Definition staged_card : gmap string (list byte) := {[ "/update.bin" := firmware ]}.
Definition stale_card : gmap string (list byte) := {[ "/update.bin" := [xff; xfe; xfd; xfc] ]}.
Definition empty_image_card : gmap string (list byte) := {[ "/update.bin" := [] ]}.

Definition downloading_world : World :=
  {| is_downloading := true; is_updating := false; sd_card := ∅ |}.

Definition updating_world : World :=
  {| is_downloading := false; is_updating := true; sd_card := ∅ |}.

(** The fetch task passes its check and gets a 200; the apply task then
    passes its own check, opens the image left on the card and sets its
    flag; the fetch task sets its flag and mounts the card. *)
Definition overlap_schedule : list (Task * Env) :=
  [(FetchTask, env_ok); (FetchTask, env_ok);
   (ApplyTask, env_ok); (ApplyTask, env_ok); (ApplyTask, env_ok); (ApplyTask, env_ok);
   (FetchTask, env_ok); (FetchTask, env_ok)].

Definition overlap_state : Sys := run_schedule overlap_schedule (boot staged_card).

(** The same from an empty card: a first fetch run stages the image, and
    the race happens during the next fetch run. *)
Definition overlap_schedule_from_empty_card : list (Task * Env) :=
  replicate 6 (FetchTask, env_ok) ++ overlap_schedule.

(** The fetch task alone, up to the start of its download. *)
Definition fetching_state : Sys :=
  run_schedule [(FetchTask, env_ok); (FetchTask, env_ok); (FetchTask, env_ok)]
               (boot ∅).

(** A whole fetch run, back to idle. *)
Definition fetched_state : Sys :=
  run_schedule (replicate 6 (FetchTask, env_ok)) (boot ∅).

(** ** Start-up and the task loops *)

(** Credentials of lines 17-18. *)
Definition ssid : string := "WiFi_NAME".
Definition password : string := "PASSWORD".

(** Modelled from the spec: [wl_status_t] of the WiFi library, which is not
    part of the sketch; the sketch compares [WiFi.status()] with
    [WL_CONNECTED] only. *)
Inductive wl_status_t :=
| WL_NO_SHIELD | WL_IDLE_STATUS | WL_NO_SSID_AVAIL | WL_SCAN_COMPLETED
| WL_CONNECTED | WL_CONNECT_FAILED | WL_CONNECTION_LOST | WL_DISCONNECTED.

#[export] Instance wl_status_t_eq_dec : EqDecision wl_status_t.
Proof. solve_decision. Defined.

(** What start-up and the loops of the tasks do around the agents. *)
Inductive SysEvent :=
| SysSerialBegin (baud : Z)
| SysWiFiBegin (ssid password : string)
| SysWiFiStatus (status : wl_status_t)
| SysDelay (ms : Z)
| SysTaskCreate (name : string) (stackDepth priority core : Z)
| SysAgent (e : Event).

(** The loop of lines 99-102.  [statuses] holds what the successive calls
    of [WiFi.status()] answer while the chip is watched; the loop is still
    waiting ([false]) when they run out before one is [WL_CONNECTED]. *)
Fixpoint wait_for_WiFi (statuses : list wl_status_t) : bool * list SysEvent :=
  match statuses with
  | [] => (false, [])
  | status :: statuses' =>
      if bool_decide (status ≠ WL_CONNECTED) then
        let '(connected, evs) := wait_for_WiFi statuses' in
        (connected,
         SysWiFiStatus status :: SysDelay 500 :: SysAgent (EvPrint ".") :: evs)
      else (true, [SysWiFiStatus status])
  end.

(** [WiFiConnection], lines 96-104: whether it returned, and its trace. *)
Definition WiFiConnection (statuses : list wl_status_t) : bool * list SysEvent :=
  let '(connected, evs) := wait_for_WiFi statuses in
  (connected,
   SysWiFiBegin ssid password :: SysAgent (EvPrint "Connecting to WiFi") :: evs ++
   if connected
   then [SysAgent (EvPrintln (String (Ascii.ascii_of_nat 10) "WiFi connected successfully!"))]
   else []).

(** [setup], lines 165-199: both stacks have 10240 words, both tasks have
    priority 1 and are pinned to core 1. *)
Definition setup (statuses : list wl_status_t) : bool * list SysEvent :=
  let '(connected, evs) := WiFiConnection statuses in
  (connected,
   SysSerialBegin 115200 :: evs ++
   if connected
   then [SysTaskCreate "WiFiUpdaterLoop" 10240 1 1;
         SysTaskCreate "SDUpdaterLoop" 10240 1 1]
   else []).

(** A task loop never ends; watched for some rounds it is either still
    looping or has restarted the chip. *)
Inductive LoopResult :=
| StillLooping (w : World) (evs : list SysEvent)
| Rebooted (w : World) (evs : list SysEvent).

Definition loop_world (r : LoopResult) : World :=
  match r with StillLooping w _ => w | Rebooted w _ => w end.

Definition loop_events (r : LoopResult) : list SysEvent :=
  match r with StillLooping _ evs => evs | Rebooted _ evs => evs end.

Definition rebooted (r : LoopResult) : bool :=
  match r with StillLooping _ _ => false | Rebooted _ _ => true end.

Definition loop_prepend (evs : list SysEvent) (r : LoopResult) : LoopResult :=
  match r with
  | StillLooping w evs' => StillLooping w (evs ++ evs')
  | Rebooted w evs' => Rebooted w (evs ++ evs')
  end.

(** [WiFiUpdaterLoop], lines 205-210, running alone: one environment per
    round; the check comes first, the delay after it. *)
Fixpoint WiFiUpdaterLoop (envs : list Env) (w : World) : LoopResult :=
  match envs with
  | [] => StillLooping w []
  | env :: envs' =>
      match CheckAPIForUpdates env w with
      | Returned _ w' evs =>
          loop_prepend (map SysAgent evs ++ [SysDelay WiFi_Timeout])
                       (WiFiUpdaterLoop envs' w')
      | Restarted w' evs => Rebooted w' (map SysAgent evs)
      end
  end.

(** [SDUpdaterLoop], lines 212-217, running alone: the delay comes first. *)
Fixpoint SDUpdaterLoop (envs : list Env) (w : World) : LoopResult :=
  match envs with
  | [] => StillLooping w []
  | env :: envs' =>
      match UpdateFirmwareFromSD env w with
      | Returned _ w' evs =>
          loop_prepend (SysDelay SD_Timeout :: map SysAgent evs)
                       (SDUpdaterLoop envs' w')
      | Restarted w' evs => Rebooted w' (SysDelay SD_Timeout :: map SysAgent evs)
      end
  end.

(** How often a trace begins a flash. *)
Definition is_update_begin (e : Event) : bool :=
  match e with EvUpdateBegin _ _ => true | _ => false end.

Fixpoint flash_attempts (evs : list SysEvent) : nat :=
  match evs with
  | [] => 0
  | SysAgent e :: evs' =>
      (if is_update_begin e then 1 else 0) + flash_attempts evs'
  | _ :: evs' => flash_attempts evs'
  end.

(** How often a trace prints a dot, and how long it waits in all. *)
Fixpoint dots (evs : list SysEvent) : nat :=
  match evs with
  | [] => 0
  | SysAgent (EvPrint ".") :: evs' => S (dots evs')
  | _ :: evs' => dots evs'
  end.

Fixpoint waited (evs : list SysEvent) : Z :=
  match evs with
  | [] => 0
  | SysDelay ms :: evs' => ms + waited evs'
  | _ :: evs' => waited evs'
  end.

(** What one failed poll leaves in the trace. *)
Definition failed_poll (status : wl_status_t) : list SysEvent :=
  [SysWiFiStatus status; SysDelay 500; SysAgent (EvPrint ".")].

(** The line [WiFiConnection] prints at the end, and the tasks of [setup]. *)
Definition connected_line : SysEvent :=
  SysAgent (EvPrintln (String (Ascii.ascii_of_nat 10) "WiFi connected successfully!")).

Definition created_tasks : list SysEvent :=
  [SysTaskCreate "WiFiUpdaterLoop" 10240 1 1;
   SysTaskCreate "SDUpdaterLoop" 10240 1 1].

Definition is_task_create (e : SysEvent) : bool :=
  match e with SysTaskCreate _ _ _ _ => true | _ => false end.

(** Events that touch the card. *)
Definition is_storage_access (e : Event) : bool :=
  match e with
  | EvSdBegin _ _ | EvSdOpen _ _ _ | EvFileWrite _ _ | EvFileClose _
  | EvSdRemove _ => true
  | _ => false
  end.

(** What a fetch run may leave in its trace: prints, its own flag, the
    card short of a removal, and the network. *)
Definition fetch_event (e : Event) : bool :=
  match e with
  | EvPrint _ | EvPrintln _ | EvSetDownloading _ | EvSdBegin _ _
  | EvSdOpen _ FILE_WRITE _ | EvFileWrite _ _ | EvFileClose _
  | EvHttpBegin _ _ | EvHttpGet _ | EvHttpEnd => true
  | _ => false
  end.

(** What an apply run may leave in its trace: prints, its own flag, the
    card short of a write, the flash and the restart. *)
Definition apply_event (e : Event) : bool :=
  match e with
  | EvPrint _ | EvPrintln _ | EvSetUpdating _ | EvSdBegin _ _
  | EvSdOpen _ FILE_READ _ | EvFileClose _ | EvSdRemove _
  | EvUpdateBegin _ _ | EvUpdateWriteStream _ _ | EvUpdateEnd _
  | EvUpdateIsFinished _ | EvUpdateGetError _ | EvRestart => true
  | _ => false
  end.

(** The [Update] library accepts the image: the flash ends in a restart. *)
Definition flash_accepted (env : Env) : bool :=
  update_begin_ok env && update_end_ok env && update_is_finished env.

(** The server offers an image and the card takes it. *)
Definition download_starts (env : Env) : bool :=
  http_begin_ok env
  && (bool_decide (http_get_code env = HTTP_CODE_OK)
      || bool_decide (http_get_code env = HTTP_CODE_MOVED_PERMANENTLY))
  && sd_begin_ok env && sd_open_write_ok env.

(** Sample inputs for the properties below. *)
Definition env_refused : Env :=
  {| sd_begin_ok := true; sd_open_write_ok := true;
     http_begin_ok := true; http_get_code := 200;
     http_body := firmware; stream_arrivals := [2; 5];
     update_begin_ok := false; update_written := 0;
     update_end_ok := false; update_is_finished := false; update_error := 4 |}.

Definition env_end_fails : Env :=
  {| sd_begin_ok := true; sd_open_write_ok := true;
     http_begin_ok := true; http_get_code := 200;
     http_body := firmware; stream_arrivals := [2; 5];
     update_begin_ok := true; update_written := 3;
     update_end_ok := false; update_is_finished := false; update_error := 9 |}.

(** [Update.end()] succeeds but [Update.isFinished()] says no. *)
Definition env_not_finished : Env :=
  {| sd_begin_ok := true; sd_open_write_ok := true;
     http_begin_ok := true; http_get_code := 200;
     http_body := firmware; stream_arrivals := [2; 5];
     update_begin_ok := true; update_written := 3;
     update_end_ok := true; update_is_finished := false; update_error := 0 |}.

Definition env_not_found : Env :=
  {| sd_begin_ok := true; sd_open_write_ok := true;
     http_begin_ok := true; http_get_code := 404;
     http_body := firmware; stream_arrivals := [2; 5];
     update_begin_ok := true; update_written := 3;
     update_end_ok := true; update_is_finished := true; update_error := 0 |}.

(** The stream stalls after two bytes. *)
Definition env_stalls : Env :=
  {| sd_begin_ok := true; sd_open_write_ok := true;
     http_begin_ok := true; http_get_code := 200;
     http_body := firmware; stream_arrivals := [2; 0; 5];
     update_begin_ok := true; update_written := 2;
     update_end_ok := true; update_is_finished := true; update_error := 0 |}.

(** The stream delivers nothing. *)
Definition env_silent : Env :=
  {| sd_begin_ok := true; sd_open_write_ok := true;
     http_begin_ok := true; http_get_code := 200;
     http_body := firmware; stream_arrivals := [];
     update_begin_ok := true; update_written := 0;
     update_end_ok := true; update_is_finished := true; update_error := 0 |}.

Definition other_files_card : gmap string (list byte) :=
  {[ "/update.bin" := firmware; "/config.txt" := [x41; x42] ]}.

(** The last value a trace wrote to a flag, [held] when it wrote none. *)
Definition updating_gate (e : Event) : option bool :=
  match e with EvSetUpdating b => Some b | _ => None end.

Definition downloading_gate (e : Event) : option bool :=
  match e with EvSetDownloading b => Some b | _ => None end.

Definition gate_after (gate : Event → option bool) (held : bool)
    (evs : list Event) : bool :=
  foldl (λ h e, default h (gate e)) held evs.

(** Every guarded event of a trace comes while the flag is held. *)
Fixpoint guarded_by (gate : Event → option bool) (guarded : Event → bool)
    (held : bool) (evs : list Event) : bool :=
  match evs with
  | [] => true
  | e :: evs' =>
      (if guarded e then held else true)
      && guarded_by gate guarded (default held (gate e)) evs'
  end.

(** Calls that touch the flash or restart the chip. *)
Definition is_flash_or_restart (e : Event) : bool :=
  match e with EvRestart => true | _ => is_flash_op e end.

(** * Properties *)

(** ** Running the monad in proofs *)

(** Unfold the primitives and the plumbing of the monad. *)
Ltac run_prims :=
  cbv [mbind M_bind mret M_ret prepend_events
       read_is_downloading read_is_updating write_is_downloading write_is_updating
       Serial_print Serial_println SD_begin SD_open File_size File_write File_close
       SD_remove HTTP_begin HTTP_GET HTTP_end HTTP_getStreamPtr
       Update_begin Update_writeStream Update_end Update_isFinished Update_getError
       ESP_restart negb];
  cbn [app].

(** ** The copy loop *)

Lemma set_sd_card_same w : set_sd_card (sd_card w) w = w.
Proof. by destruct w. Qed.

Section CopyLoop.
Context (file : string).

Lemma alter_app_nil (card : gmap string (list byte)) :
  alter (λ c, c ++ []) file card = card.
Proof.
  apply map_eq. intros i. destruct (decide (file = i)) as [<-|Hne].
  - rewrite lookup_alter_eq. destruct (card !! file); cbn; [|done].
    by rewrite app_nil_r.
  - by rewrite lookup_alter_ne.
Qed.

Lemma alter_app_app d1 d2 (card : gmap string (list byte)) :
  alter (λ c, c ++ d2) file (alter (λ c, c ++ d1) file card) =
  alter (λ c, c ++ d1 ++ d2) file card.
Proof.
  apply map_eq. intros i. destruct (decide (file = i)) as [<-|Hne].
  - rewrite !lookup_alter_eq. destruct (card !! file); cbn; [|done].
    by rewrite app_assoc.
  - by rewrite !lookup_alter_ne.
Qed.

(** The loop always returns: it appends the chunks to the file and leaves
    one write event per chunk. *)
Lemma copy_stream_run arrivals : ∀ stream env w,
  copy_stream file arrivals stream env w =
  Returned ()
    (set_sd_card
       (alter (λ c, c ++ concat (stream_chunks arrivals stream)) file (sd_card w)) w)
    (map (EvFileWrite file) (stream_chunks arrivals stream)).
Proof.
  induction arrivals as [|avail arrivals IH]; intros stream env w.
  - cbn [copy_stream stream_chunks concat map]. run_prims.
    by rewrite alter_app_nil, set_sd_card_same.
  - cbn [copy_stream stream_chunks readBytes].
    destruct (bool_decide (0 < length (take (avail `min` bufferSize) stream))).
    + run_prims. rewrite IH. cbn [concat map]. f_equal.
      unfold set_sd_card; cbn [sd_card is_downloading is_updating].
      by rewrite alter_app_app.
    + run_prims. cbn [concat map].
      by rewrite alter_app_nil, set_sd_card_same.
Qed.

Lemma written_data_writes chunks :
  written_data (map (EvFileWrite file) chunks) = concat chunks.
Proof.
  induction chunks as [|c chunks IH]; [done|].
  cbn. unfold written_data in IH. by rewrite IH.
Qed.
End CopyLoop.

Lemma written_data_app evs1 evs2 :
  written_data (evs1 ++ evs2) = written_data evs1 ++ written_data evs2.
Proof. unfold written_data. apply flat_map_app. Qed.

Lemma stream_chunks_bounded arrivals : ∀ stream,
  Forall (λ c, 0 < length c ≤ bufferSize) (stream_chunks arrivals stream).
Proof.
  induction arrivals as [|avail arrivals IH]; intros stream;
    cbn [stream_chunks readBytes].
  - constructor.
  - case_bool_decide as Hlen; constructor; [|apply IH].
    split; [exact Hlen|]. rewrite length_take. lia.
Qed.

Lemma stream_chunks_concat arrivals : ∀ stream,
  concat (stream_chunks arrivals stream) = take (deliverable arrivals) stream.
Proof.
  induction arrivals as [|avail arrivals IH]; intros stream;
    cbn [stream_chunks readBytes deliverable concat].
  - by rewrite take_0.
  - case_bool_decide as Hlen.
    + cbn [concat]. rewrite IH. rewrite length_take in Hlen.
      rewrite bool_decide_eq_true_2 by lia.
      by rewrite take_take_drop.
    + rewrite length_take in Hlen. unfold bufferSize in *.
      case_bool_decide; [|by rewrite take_0].
      assert (length stream = 0) as ->%nil_length_inv by lia.
      by rewrite take_nil.
Qed.

(** ** Case analysis on a run *)

(** Rewrite a scrutinee with a hypothesis that gives its value. *)
Ltac run_hyp :=
  match goal with
  | H : ?x = _ |- context [match ?x with _ => _ end] => rewrite H
  end.

Ltac run := repeat first [progress run_prims | run_hyp | rewrite copy_stream_run].

Ltac innermost t :=
  lazymatch t with
  | context [match ?x with _ => _ end] => innermost x
  | _ => t
  end.

Ltac case_scrutinee :=
  match goal with
  | |- context [match ?x with _ => _ end] =>
      let y := innermost x in destruct y eqn:?
  end.

Ltac run_cases := run; repeat (case_scrutinee; run).

(** ** One task alone runs the function of the sketch *)

Lemma apply_steps_S n pc env w :
  apply_steps (S n) pc env w =
  match apply_step pc env w with
  | Returned pc' w' evs =>
      prepend_events evs
        (match pc' with A_idle => Returned () w' [] | _ => apply_steps n pc' env w' end)
  | Restarted w' evs => Restarted w' evs
  end.
Proof.
  cbv [apply_steps mbind M_bind mret M_ret].
  by destruct (apply_step pc env w) as [[]|].
Qed.

Lemma fetch_steps_S n pc env w :
  fetch_steps (S n) pc env w =
  match fetch_step pc env w with
  | Returned pc' w' evs =>
      prepend_events evs
        (match pc' with F_idle => Returned () w' [] | _ => fetch_steps n pc' env w' end)
  | Restarted w' evs => Restarted w' evs
  end.
Proof.
  cbv [fetch_steps mbind M_bind mret M_ret].
  by destruct (fetch_step pc env w) as [[]|].
Qed.

Lemma apply_steps_run env w :
  apply_steps 7 A_idle env w = UpdateFirmwareFromSD env w.
Proof.
  cbv [UpdateFirmwareFromSD performUpdate]. run_prims.
  repeat first
    [ reflexivity
    | rewrite apply_steps_S; cbv [apply_step performUpdate]; run_prims
    | case_scrutinee; run_prims ].
Qed.

Lemma fetch_steps_run env w :
  fetch_steps 6 F_idle env w = CheckAPIForUpdates env w.
Proof.
  cbv [CheckAPIForUpdates]. run_prims.
  repeat first
    [ reflexivity
    | rewrite fetch_steps_S; cbv [fetch_step]; run_prims
    | rewrite !copy_stream_run
    | case_scrutinee; run_prims ].
Qed.

(** ** Sample runs *)

(** A download over a stale image: the file is rewritten in two chunks. *)
Example fetch_run_over_stale_image :
  CheckAPIForUpdates env_ok (boot_world stale_card) =
  Returned () (boot_world staged_card)
    [EvPrintln "Checking for updates...";
     EvHttpBegin updateURL true; EvHttpGet 200;
     EvSetDownloading true; EvPrintln "Update found!";
     EvSdBegin 5 true; EvSdOpen "/update.bin" FILE_WRITE true;
     EvFileWrite "/update.bin" [x01; x02]; EvFileWrite "/update.bin" [x03];
     EvFileClose "/update.bin"; EvPrintln "File saved successfully.";
     EvHttpEnd; EvSetDownloading false].
Proof. by vm_compute. Qed.

(** A flash that the library accepts ends in a restart. *)
Example apply_run_restarts :
  UpdateFirmwareFromSD env_ok (boot_world staged_card) =
  Restarted (set_is_updating true (boot_world staged_card))
    [EvSdBegin 5 true; EvSdOpen "/update.bin" FILE_READ true;
     EvSetUpdating true; EvPrintln "SD card initialized successfully.";
     EvPrintln "Try to start update"; EvUpdateBegin 3 true;
     EvUpdateWriteStream firmware 3; EvPrintln "Written : 3 successfully";
     EvUpdateEnd true; EvPrintln "OTA done!"; EvUpdateIsFinished true;
     EvPrintln "Update successfully completed. Rebooting."; EvRestart].
Proof. by vm_compute. Qed.

(** Without an image the apply agent only looks. *)
Example apply_run_without_image :
  UpdateFirmwareFromSD env_ok (boot_world ∅) =
  Returned () (boot_world ∅)
    [EvSdBegin 5 true; EvSdOpen "/update.bin" FILE_READ false;
     EvPrintln "No update found."].
Proof. by vm_compute. Qed.

(** ** The apply agent *)

Lemma In_decide (e : Event) evs : In e evs ↔ bool_decide (e ∈ evs) = true.
Proof. by rewrite bool_decide_eq_true, list_elem_of_In. Qed.

Lemma performUpdate_restart updateSource updateSize env w :
  let r := performUpdate updateSource updateSize env w in
  (restarted r = true ↔ In EvRestart (result_events r)) ∧
  (In EvRestart (result_events r) ↔
     In (EvUpdateEnd true) (result_events r) ∧
     In (EvUpdateIsFinished true) (result_events r)).
Proof.
  cbv [performUpdate]. rewrite !In_decide.
  run_cases; cbn [restarted result_events]; vm_compute; intuition congruence.
Qed.

(** The flash attempt leaves the flags and the card as they were. *)
Lemma performUpdate_world updateSource updateSize env w :
  result_world (performUpdate updateSource updateSize env w) = w.
Proof. cbv [performUpdate]. by run_cases. Qed.

Lemma file_content_set_is_updating b w file :
  file_content (set_is_updating b w) file = file_content w file.
Proof. done. Qed.

Lemma file_content_lookup w file image :
  sd_card w !! file = Some image → file_content w file = image.
Proof. unfold file_content. by intros ->. Qed.

(** The restart in the trace of a run of the apply agent. *)
Lemma restart_in_trace env w :
  let r := UpdateFirmwareFromSD env w in
  (restarted r = true ↔ In EvRestart (result_events r)) ∧
  (In EvRestart (result_events r) ↔
     In (EvUpdateEnd true) (result_events r) ∧
     In (EvUpdateIsFinished true) (result_events r)).
Proof.
  cbv [UpdateFirmwareFromSD performUpdate]. rewrite !In_decide.
  run_cases; cbn [restarted result_events]; vm_compute; intuition congruence.
Qed.

(** A finalize that reported success, and the answer of the library to
    the question whether the update is finished, decide the restart. *)
Lemma restart_iff_end_and_finished env w :
  let r := UpdateFirmwareFromSD env w in
  restarted r = true ↔
  In (EvUpdateEnd true) (result_events r) ∧ update_is_finished env = true.
Proof.
  cbv [UpdateFirmwareFromSD performUpdate]. rewrite !In_decide.
  run_cases; cbn [restarted result_events]; vm_compute; intuition congruence.
Qed.

(** All that a restart takes, in terms of the world and of what the
    hardware answers. *)
Lemma restart_iff_all_good env w :
  restarted (UpdateFirmwareFromSD env w) = true ↔
  is_downloading w = false ∧ sd_begin_ok env = true ∧
  (∃ image, sd_card w !! "/update.bin" = Some image ∧ image ≠ []) ∧
  update_begin_ok env = true ∧ update_end_ok env = true ∧
  update_is_finished env = true.
Proof.
  cbv [UpdateFirmwareFromSD].
  destruct (is_downloading w) eqn:Hgate; run.
  { split; [done|]. by intros (? & _). }
  destruct (sd_begin_ok env) eqn:Hmount; run.
  2:{ split; [done|]. by intros (_ & ? & _). }
  destruct (sd_card w !! "/update.bin") as [image|] eqn:Hfile; run.
  2:{ split; [done|]. by intros (_ & _ & (image & ? & _) & _). }
  rewrite file_content_set_is_updating, (file_content_lookup _ _ _ Hfile).
  case_bool_decide as Hsize; run.
  2:{ split; [done|]. intros (_ & _ & (image' & [= <-] & Hne) & _).
      destruct image; [done|]. cbn in Hsize. lia. }
  assert (Himage : ∃ image', Some image = Some image' ∧ image' ≠ []).
  { exists image. split; [done|]. intros ->. cbn in Hsize. lia. }
  cbv [performUpdate].
  run_cases; cbn [restarted]; split;
    first [ done | by intros (_ & _ & _ & ? & ? & ?) ].
Qed.

(** C4. The chip restarts exactly when the finalize reported success and
    the verification signal is true.  For every run of the apply agent:
    the run ends in a restart iff its trace has the restart call; the trace
    has the restart call iff it has a successful [Update.end()] and a true
    [Update.isFinished()]; the run restarts iff [Update.end()] was called
    and reported success and the library answers that the update is
    finished; and the run restarts iff it got past its entry check, the
    card mounted, a non-empty image was there and [Update.begin],
    [Update.end] and [Update.isFinished] all answer true.  A run whose
    finalize succeeded while the library says "not finished" thus does
    not restart, and one whose finalize succeeded while the library says
    "finished" does. *)
Theorem restart_iff_finalized_and_finished env w :
  let r := UpdateFirmwareFromSD env w in
  (restarted r = true ↔ In EvRestart (result_events r)) ∧
  (In EvRestart (result_events r) ↔
     In (EvUpdateEnd true) (result_events r) ∧
     In (EvUpdateIsFinished true) (result_events r)) ∧
  (restarted r = true ↔
     In (EvUpdateEnd true) (result_events r) ∧ update_is_finished env = true) ∧
  (restarted r = true ↔
     is_downloading w = false ∧ sd_begin_ok env = true ∧
     (∃ image, sd_card w !! "/update.bin" = Some image ∧ image ≠ []) ∧
     update_begin_ok env = true ∧ update_end_ok env = true ∧
     update_is_finished env = true).
Proof.
  cbv zeta. destruct (restart_in_trace env w) as [Hcall Htrace].
  split; [exact Hcall|]. split; [exact Htrace|].
  split; [apply restart_iff_end_and_finished|apply restart_iff_all_good].
Qed.

Lemma restart_iff_finalized_and_finished_witness :
  restarted (UpdateFirmwareFromSD env_ok (boot_world staged_card)) = true ∧
  In (EvUpdateEnd true)
     (result_events (UpdateFirmwareFromSD env_not_finished (boot_world staged_card))) ∧
  restarted (UpdateFirmwareFromSD env_not_finished (boot_world staged_card)) = false.
Proof.
  split; [|split].
  - apply (restart_iff_finalized_and_finished env_ok (boot_world staged_card)).
    repeat split; try reflexivity. exists firmware. by split.
  - apply In_decide. by vm_compute.
  - destruct (restarted (UpdateFirmwareFromSD env_not_finished (boot_world staged_card)))
      eqn:Hrestart; [|reflexivity].
    apply (restart_iff_finalized_and_finished env_not_finished
             (boot_world staged_card)) in Hrestart as (_ & _ & _ & _ & _ & Hfinished).
    discriminate Hfinished.
Defined.

(** C5. When [Update.begin] accepted the image and [Update.writeStream]
    reports fewer bytes than the declared size, the run prints the
    "Written only" warning and then calls [Update.end()] all the same. *)
Theorem short_write_still_finalizes updateSource updateSize env w :
  update_begin_ok env = true →
  update_written env < updateSize →
  ∃ pre post,
    result_events (performUpdate updateSource updateSize env w) =
    pre ++ EvPrintln ("Written only : " +:+ pretty (update_written env) +:+ "/"
                      +:+ pretty updateSize +:+ ". Retry?")
        :: EvUpdateEnd (update_end_ok env) :: post.
Proof.
  intros Hbegin Hless.
  assert (Hneq : bool_decide (update_written env = updateSize) = false)
    by (apply bool_decide_eq_false_2; lia).
  cbv [performUpdate]. run.
  eexists [_; _].
  destruct (update_end_ok env) eqn:Hend; run;
    [destruct (update_is_finished env) eqn:Hfin; run|];
    eexists; reflexivity.
Qed.

Lemma short_write_still_finalizes_witness :
  update_begin_ok env_short_write = true ∧
  update_written env_short_write < 3 ∧
  ∃ pre post,
    result_events (performUpdate "/update.bin" 3 env_short_write (boot_world staged_card)) =
    pre ++ EvPrintln "Written only : 1/3. Retry?" :: EvUpdateEnd true :: post.
Proof.
  split; [reflexivity|]. split; [vm_compute; lia|].
  apply (short_write_still_finalizes "/update.bin" 3 env_short_write
           (boot_world staged_card)); [reflexivity|vm_compute; lia].
Defined.

(** C6. When the staged image is empty, the run prints the empty-file
    error, calls nothing of [Update], does not restart, removes the file
    and returns. *)
Theorem empty_image_discarded env w :
  is_downloading w = false →
  sd_begin_ok env = true →
  sd_card w !! "/update.bin" = Some [] →
  ∃ w' evs,
    UpdateFirmwareFromSD env w = Returned () w' evs ∧
    In (EvPrintln "Error, file is empty") evs ∧
    Forall (λ e, is_flash_op e = false ∧ e ≠ EvRestart) evs ∧
    In (EvSdRemove "/update.bin") evs ∧
    sd_card w' !! "/update.bin" = None.
Proof.
  intros Hgate Hmount Hfile. cbv [UpdateFirmwareFromSD].
  assert (Hsize : bool_decide
            (0 < length (file_content (set_is_updating true w) "/update.bin")) = false).
  { unfold file_content. cbn [sd_card set_is_updating]. by rewrite Hfile. }
  run. do 2 eexists. split; [reflexivity|]. repeat split.
  - cbn. tauto.
  - repeat constructor; discriminate.
  - cbn. tauto.
  - cbn [sd_card set_sd_card set_is_updating]. apply lookup_delete_eq.
Qed.

Lemma empty_image_discarded_witness :
  is_downloading (boot_world empty_image_card) = false ∧
  sd_begin_ok env_ok = true ∧
  sd_card (boot_world empty_image_card) !! "/update.bin" = Some [] ∧
  ∃ w' evs,
    UpdateFirmwareFromSD env_ok (boot_world empty_image_card) = Returned () w' evs ∧
    In (EvPrintln "Error, file is empty") evs ∧
    Forall (λ e, is_flash_op e = false ∧ e ≠ EvRestart) evs ∧
    In (EvSdRemove "/update.bin") evs ∧
    sd_card w' !! "/update.bin" = None.
Proof.
  split; [reflexivity|]. split; [reflexivity|]. split; [reflexivity|].
  apply (empty_image_discarded env_ok (boot_world empty_image_card)); reflexivity.
Defined.

(** C9. When [SD.begin] fails, the run returns with the world as it was
    (both flags and the card, so a staged image stays), and its trace has
    no flag write, no [Update] call, no restart and no storage write. *)
Theorem mount_failure_changes_nothing env w :
  sd_begin_ok env = false →
  ∃ evs,
    UpdateFirmwareFromSD env w = Returned () w evs ∧
    Forall (λ e, writes_gate e = false ∧ is_flash_op e = false ∧
                 e ≠ EvRestart ∧ is_storage_write e = false) evs.
Proof.
  intros Hmount. cbv [UpdateFirmwareFromSD].
  destruct (is_downloading w) eqn:Hgate; run;
    (eexists; split; [reflexivity|]); repeat constructor; discriminate.
Qed.

Lemma mount_failure_changes_nothing_witness :
  sd_begin_ok env_mount_fails = false ∧
  ∃ evs,
    UpdateFirmwareFromSD env_mount_fails (boot_world staged_card) =
      Returned () (boot_world staged_card) evs ∧
    Forall (λ e, writes_gate e = false ∧ is_flash_op e = false ∧
                 e ≠ EvRestart ∧ is_storage_write e = false) evs.
Proof.
  split; [reflexivity|].
  apply (mount_failure_changes_nothing env_mount_fails (boot_world staged_card)).
  reflexivity.
Defined.

Lemma gate_after_open_sound evs :
  ∀ opened, gate_after_open opened evs = true →
  ∀ pre post, evs = pre ++ EvSetUpdating true :: post →
  opened = true ∨ In (EvSdOpen "/update.bin" FILE_READ true) pre.
Proof.
  induction evs as [|e evs IH]; intros opened Hchk pre post Heq.
  - destruct pre; discriminate.
  - destruct pre as [|e' pre]; cbn [app] in Heq; injection Heq as -> ->.
    + cbn in Hchk. apply andb_prop in Hchk as [-> _]. by left.
    + assert (Hrest : ∃ opened',
                gate_after_open opened' (pre ++ EvSetUpdating true :: post) = true ∧
                (opened' = true →
                 opened = true ∨ e' = EvSdOpen "/update.bin" FILE_READ true)).
      { revert Hchk. cbn [gate_after_open].
        destruct e';
          repeat match goal with
                 | |- context [match ?x with _ => _ end] => is_var x; destruct x
                 end;
          intros H; try (exists opened; split; [exact H|by left]).
        - apply andb_prop in H as [_ H]. exists opened; split; [exact H|by left].
        - eexists; split; [exact H|].
          intros [->|Hp%bool_decide_eq_true]%orb_prop; [by left|right; by subst]. }
      destruct Hrest as (opened' & Hrest & Hopened).
      destruct (IH _ Hrest pre post eq_refl) as [Ho|Hin]; [|right; by right].
      destruct (Hopened Ho) as [ | -> ]; [by left|right; by left].
Qed.

(** C10. [is_updating] is set only after the staged image was opened: in
    the trace of every run, each [is_updating = true] has a successful open
    of [/update.bin] before it; and a run whose mount fails or that finds
    no image returns with the world as it was, without any flag write. *)
Theorem gate_set_only_after_open env w :
  let evs := result_events (UpdateFirmwareFromSD env w) in
  (∀ pre post, evs = pre ++ EvSetUpdating true :: post →
               In (EvSdOpen "/update.bin" FILE_READ true) pre) ∧
  (sd_begin_ok env = false ∨ sd_card w !! "/update.bin" = None →
   UpdateFirmwareFromSD env w = Returned () w evs ∧
   Forall (λ e, writes_gate e = false) evs).
Proof.
  cbv zeta. split.
  - intros pre post Heq.
    assert (Hchk : gate_after_open false
                     (result_events (UpdateFirmwareFromSD env w)) = true).
    { clear. cbv [UpdateFirmwareFromSD performUpdate]. by run_cases. }
    by destruct (gate_after_open_sound _ false Hchk pre post Heq).
  - intros Hnone. cbv [UpdateFirmwareFromSD].
    destruct (is_downloading w) eqn:Hgate; run.
    { split; [reflexivity|]. repeat constructor. }
    destruct (sd_begin_ok env) eqn:Hmount; run.
    2:{ split; [reflexivity|]. repeat constructor. }
    destruct Hnone as [|Hfile]; [discriminate|]. run.
    split; [reflexivity|]. repeat constructor.
Qed.

Lemma gate_set_only_after_open_witness :
  (sd_begin_ok env_ok = false ∨ sd_card (boot_world ∅) !! "/update.bin" = None) ∧
  UpdateFirmwareFromSD env_ok (boot_world ∅) =
    Returned () (boot_world ∅) (result_events (UpdateFirmwareFromSD env_ok (boot_world ∅))) ∧
  Forall (λ e, writes_gate e = false)
         (result_events (UpdateFirmwareFromSD env_ok (boot_world ∅))).
Proof.
  assert (Hnone : sd_begin_ok env_ok = false ∨
                  sd_card (boot_world ∅) !! "/update.bin" = None)
    by (right; reflexivity).
  split; [exact Hnone|].
  exact (proj2 (gate_set_only_after_open env_ok (boot_world ∅)) Hnone).
Defined.

(** Every run that opened the staged image and returned has removed it. *)
Lemma returned_run_removes_image env w w' evs :
  UpdateFirmwareFromSD env w = Returned () w' evs →
  In (EvSdOpen "/update.bin" FILE_READ true) evs →
  In (EvSdRemove "/update.bin") evs ∧ sd_card w' !! "/update.bin" = None.
Proof.
  cbv [UpdateFirmwareFromSD performUpdate].
  run_cases; intros Heq Hin; simplify_eq;
    first
      [ by (apply In_decide in Hin; vm_compute in Hin)
      | split;
        [ by (apply In_decide; vm_compute)
        | cbn [sd_card set_sd_card set_is_updating]; apply lookup_delete_eq ] ].
Qed.

(** C3. The staged image is not removed when the flash succeeds: with an
    image on the card and an [Update] library that accepts it, the run
    opens the image, restarts inside [performUpdate], never reaches
    [SD.remove], and leaves the image on the card. *)
Theorem staged_image_kept_on_restart :
  let r := UpdateFirmwareFromSD env_ok (boot_world staged_card) in
  restarted r = true ∧
  In (EvSdOpen "/update.bin" FILE_READ true) (result_events r) ∧
  ¬ In (EvSdRemove "/update.bin") (result_events r) ∧
  sd_card (result_world r) !! "/update.bin" = Some firmware.
Proof.
  cbv zeta. rewrite !In_decide. by vm_compute.
Qed.

(** After that restart the chip boots with the same card, so the apply
    task flashes the same image and restarts again. *)
Lemma reflash_after_restart :
  run_schedule (replicate 5 (ApplyTask, env_ok)) (boot staged_card) = boot staged_card.
Proof. by vm_compute. Qed.

(** ** The fetch agent *)

(** C7. On a 200 or 301 answer, with the card mounted and the staging file
    opened for writing, a download whose arrivals cover the body leaves
    [/update.bin] holding exactly the response body, whatever the card held
    before; the bytes written are the body, every write carries between 1
    and 1024 bytes, and the open comes before the first write. *)
Theorem download_stages_response_body env w :
  is_updating w = false →
  http_begin_ok env = true →
  http_get_code env = HTTP_CODE_OK ∨ http_get_code env = HTTP_CODE_MOVED_PERMANENTLY →
  sd_begin_ok env = true →
  sd_open_write_ok env = true →
  (length (http_body env) ≤ deliverable (stream_arrivals env))%nat →
  ∃ w' evs,
    CheckAPIForUpdates env w = Returned () w' evs ∧
    sd_card w' !! "/update.bin" = Some (http_body env) ∧
    written_data evs = http_body env ∧
    Forall bounded_write evs ∧
    ∃ pre post, evs = pre ++ EvSdOpen "/update.bin" FILE_WRITE true :: post ∧
                written_data pre = [].
Proof.
  intros Hgate Hbegin Hcode Hmount Hopen Hall.
  assert (Hcode1 : bool_decide (http_get_code env = HTTP_CODE_ALREADY_REPORTED) = false).
  { apply bool_decide_eq_false_2.
    unfold HTTP_CODE_ALREADY_REPORTED, HTTP_CODE_OK, HTTP_CODE_MOVED_PERMANENTLY in *.
    lia. }
  assert (Hcode2 : bool_decide (http_get_code env = HTTP_CODE_OK)
                   || bool_decide (http_get_code env = HTTP_CODE_MOVED_PERMANENTLY) = true).
  { by destruct Hcode as [-> | ->]. }
  assert (Hbody : concat (stream_chunks (stream_arrivals env) (http_body env)) =
                  http_body env).
  { rewrite stream_chunks_concat. by apply take_ge. }
  cbv [CheckAPIForUpdates]. run.
  do 2 eexists. split; [reflexivity|].
  cbn [sd_card set_sd_card set_is_downloading]. rewrite Hbody.
  split; [|split; [|split]].
  - by rewrite lookup_alter_eq, lookup_insert_eq.
  - change (?a :: ?b :: ?c :: ?d :: ?e :: ?f :: ?g :: ?l)
      with ([a; b; c; d; e; f; g] ++ l).
    rewrite !written_data_app, written_data_writes, Hbody.
    cbn. by rewrite !app_nil_r.
  - repeat (apply Forall_cons; split; [exact I|]).
    repeat (apply Forall_app; split; [|repeat constructor]).
    apply Forall_map. eapply Forall_impl; [apply stream_chunks_bounded|].
    intros c Hc. split; [reflexivity|exact Hc].
  - eexists [_; _; _; _; _; _], _. split; reflexivity.
Qed.

Lemma download_stages_response_body_witness :
  is_updating (boot_world stale_card) = false ∧
  http_begin_ok env_ok = true ∧
  (http_get_code env_ok = HTTP_CODE_OK ∨
   http_get_code env_ok = HTTP_CODE_MOVED_PERMANENTLY) ∧
  sd_begin_ok env_ok = true ∧
  sd_open_write_ok env_ok = true ∧
  (length (http_body env_ok) ≤ deliverable (stream_arrivals env_ok))%nat ∧
  ∃ w' evs,
    CheckAPIForUpdates env_ok (boot_world stale_card) = Returned () w' evs ∧
    sd_card w' !! "/update.bin" = Some firmware ∧
    written_data evs = firmware ∧
    Forall bounded_write evs ∧
    ∃ pre post, evs = pre ++ EvSdOpen "/update.bin" FILE_WRITE true :: post ∧
                written_data pre = [].
Proof.
  assert (Hcode : http_get_code env_ok = HTTP_CODE_OK ∨
                  http_get_code env_ok = HTTP_CODE_MOVED_PERMANENTLY)
    by (left; reflexivity).
  assert (Hall : (length (http_body env_ok) ≤ deliverable (stream_arrivals env_ok))%nat)
    by (vm_compute; lia).
  repeat (split; [first [reflexivity | assumption]|]).
  exact (download_stages_response_body env_ok (boot_world stale_card)
           eq_refl eq_refl Hcode eq_refl eq_refl Hall).
Defined.

(** Taken alone, [CheckAPIForUpdates] does not read [is_downloading]: the
    entry check of line 108 reads [is_updating] only, so a run started by
    hand with [is_downloading] set requests the URL and writes the file.
    No execution of the sketch starts a run so: the fetch task is the only
    writer of the flag and clears it before every return (see
    [gates_match_reachable]). *)
Lemma download_flag_does_not_deny_fetch :
  is_downloading downloading_world = true ∧
  ¬ fetch_entry_denied env_ok downloading_world.
Proof.
  split; [reflexivity|]. intros (evs & Hrun & Hquiet).
  apply (f_equal result_events) in Hrun. cbn [result_events] in Hrun. subst evs.
  apply Forall_forall with (x := EvHttpGet 200) in Hquiet as [Hnet _];
    [discriminate|].
  apply list_elem_of_In, In_decide. by vm_compute.
Qed.

(** [is_updating] set at entry keeps the fetch agent out: the run prints
    one line and returns with the world as it was, without a network
    request or a storage write. *)
Theorem fetch_denied_while_updating env w :
  is_updating w = true → fetch_entry_denied env w.
Proof.
  intros Hgate. exists [EvPrintln "Still updating."]. split.
  - cbv [CheckAPIForUpdates]. by run.
  - by repeat constructor.
Qed.

Lemma fetch_denied_while_updating_witness :
  is_updating updating_world = true ∧ fetch_entry_denied env_ok updating_world.
Proof.
  split; [reflexivity|].
  apply (fetch_denied_while_updating env_ok updating_world). reflexivity.
Defined.

(** ** The two tasks together *)

Lemma apply_step_returned pc env w pc' w' evs :
  apply_step pc env w = Returned pc' w' evs →
  is_downloading w' = is_downloading w ∧
  (apply_gate_ok pc w → apply_gate_ok pc' w').
Proof.
  unfold apply_gate_ok.
  destruct pc; cbv [apply_step performUpdate]; run_cases;
    intros ?; simplify_eq; done.
Qed.

Lemma fetch_step_returned pc env w pc' w' evs :
  fetch_step pc env w = Returned pc' w' evs →
  is_updating w' = is_updating w ∧
  (fetch_gate_ok pc w → fetch_gate_ok pc' w').
Proof.
  destruct pc; cbv [fetch_step]; run_cases;
    intros ?; simplify_eq; done.
Qed.

(** Only the apply task restarts the chip. *)
Lemma fetch_step_never_restarts pc env w w' evs :
  fetch_step pc env w ≠ Restarted w' evs.
Proof. destruct pc; cbv [fetch_step]; run_cases; done. Qed.

Lemma gates_match_boot card : gates_match (boot card).
Proof. done. Qed.

Lemma gates_match_step task env s :
  gates_match s → gates_match (sys_step task env s).
Proof.
  intros [Happly Hfetch]. destruct task; unfold sys_step.
  - destruct (apply_step (apply_pc s) env (world s)) as [pc' w' evs|w' evs] eqn:Hstep;
      [|apply gates_match_boot].
    apply apply_step_returned in Hstep as [Hdown Hup]. split; cbn; [auto|].
    revert Hfetch. unfold fetch_gate_ok. by rewrite Hdown.
  - destruct (fetch_step (fetch_pc s) env (world s)) as [pc' w' evs|w' evs] eqn:Hstep;
      [|apply gates_match_boot].
    apply fetch_step_returned in Hstep as [Hup Hdown]. split; cbn; [|auto].
    revert Happly. unfold apply_gate_ok. by rewrite Hup.
Qed.

(** In every interleaving each flag tells where its own task stands. *)
Lemma gates_match_reachable s : reachable s → gates_match s.
Proof.
  induction 1 as [card|s task env _ IH];
    [apply gates_match_boot|by apply gates_match_step].
Qed.

Lemma run_schedule_reachable schedule : ∀ s,
  reachable s → reachable (run_schedule schedule s).
Proof.
  induction schedule as [|[task env] schedule IH]; intros s Hs; [exact Hs|].
  apply IH. by constructor.
Qed.

Lemma apply_denied env w :
  is_downloading w = true →
  UpdateFirmwareFromSD env w =
    Returned () w [EvPrintln "Still downloading new firmware."] ∧
  apply_step A_idle env w =
    Returned A_idle w [EvPrintln "Still downloading new firmware."].
Proof. intros Hgate. cbv [UpdateFirmwareFromSD apply_step]. by run. Qed.

Lemma fetch_denied env w :
  is_updating w = true →
  CheckAPIForUpdates env w = Returned () w [EvPrintln "Still updating."] ∧
  fetch_step F_idle env w = Returned F_idle w [EvPrintln "Still updating."].
Proof. intros Hgate. cbv [CheckAPIForUpdates fetch_step]. by run. Qed.

(** C1, as stated: the two critical sections never overlap.  They do: the
    fetch task passes its check and waits for the server, the apply task
    passes its own check and sets [is_updating], then the fetch task sets
    [is_downloading]; both flags are set, the apply task is about to flash
    and the fetch task is about to write the staging file. *)
Lemma critical_sections_overlap :
  reachable overlap_state ∧
  apply_in_critical (apply_pc overlap_state) = true ∧
  fetch_in_critical (fetch_pc overlap_state) = true ∧
  is_updating (world overlap_state) = true ∧
  is_downloading (world overlap_state) = true.
Proof.
  split; [apply run_schedule_reachable, reachable_boot|]. by vm_compute.
Qed.

(** The overlap needs no image on the card at power-on. *)
Lemma overlap_from_empty_card :
  run_schedule overlap_schedule_from_empty_card (boot ∅) = overlap_state.
Proof. by vm_compute. Qed.

(** C1, amended. In every interleaving a task inside its critical section
    has its flag set, and an idle task that starts while the flag of the
    other task is set returns at once: the apply agent when
    [is_downloading] is set, the fetch agent when [is_updating] is set.
    Such a run prints one line and leaves the world and the program
    counters as they were. *)
Theorem entry_denied_while_other_in_critical s env :
  reachable s →
  (fetch_in_critical (fetch_pc s) = true → is_downloading (world s) = true) ∧
  (apply_in_critical (apply_pc s) = true → is_updating (world s) = true) ∧
  (is_downloading (world s) = true → apply_pc s = A_idle →
   UpdateFirmwareFromSD env (world s) =
     Returned () (world s) [EvPrintln "Still downloading new firmware."] ∧
   sys_step ApplyTask env s = s) ∧
  (is_updating (world s) = true → fetch_pc s = F_idle →
   CheckAPIForUpdates env (world s) =
     Returned () (world s) [EvPrintln "Still updating."] ∧
   sys_step FetchTask env s = s).
Proof.
  intros [Happly Hfetch]%gates_match_reachable. split; [|split; [|split]].
  - revert Hfetch. unfold fetch_gate_ok. by destruct (fetch_pc s).
  - intros Hcrit. unfold apply_gate_ok in Happly. by rewrite Hcrit in Happly.
  - intros Hgate Hidle. destruct (apply_denied env _ Hgate) as [Hrun Hstep].
    split; [exact Hrun|].
    unfold sys_step. rewrite Hidle, Hstep. destruct s; cbn in *. by subst.
  - intros Hgate Hidle. destruct (fetch_denied env _ Hgate) as [Hrun Hstep].
    split; [exact Hrun|].
    unfold sys_step. rewrite Hidle, Hstep. destruct s; cbn in *. by subst.
Qed.

Lemma entry_denied_while_other_in_critical_witness :
  reachable fetching_state ∧
  fetch_in_critical (fetch_pc fetching_state) = true ∧
  is_downloading (world fetching_state) = true ∧
  apply_pc fetching_state = A_idle ∧
  UpdateFirmwareFromSD env_ok (world fetching_state) =
    Returned () (world fetching_state) [EvPrintln "Still downloading new firmware."] ∧
  sys_step ApplyTask env_ok fetching_state = fetching_state.
Proof.
  assert (Hreach : reachable fetching_state)
    by apply run_schedule_reachable, reachable_boot.
  destruct (entry_denied_while_other_in_critical fetching_state env_ok Hreach)
    as (Hfetch & _ & Happly & _).
  split; [exact Hreach|]. split; [reflexivity|].
  split; [exact (Hfetch eq_refl)|]. split; [reflexivity|].
  exact (Happly (Hfetch eq_refl) eq_refl).
Defined.

Lemma UpdateFirmwareFromSD_releases env w w' evs :
  is_updating w = false →
  UpdateFirmwareFromSD env w = Returned () w' evs →
  is_updating w' = false.
Proof.
  intros Hgate. cbv [UpdateFirmwareFromSD performUpdate]. run_cases;
    intros ?; simplify_eq; done.
Qed.

Lemma CheckAPIForUpdates_releases env w w' evs :
  is_downloading w = false →
  CheckAPIForUpdates env w = Returned () w' evs →
  is_downloading w' = false.
Proof.
  intros Hgate. cbv [CheckAPIForUpdates]. run_cases;
    intros ?; simplify_eq; done.
Qed.

(** C2. In every interleaving, whenever the apply task is idle (before its
    first run and after each run that returned, by whichever exit)
    [is_updating] is false, and a run of [UpdateFirmwareFromSD] started
    there that returns leaves it false; likewise for the fetch task,
    [CheckAPIForUpdates] and [is_downloading]. *)
Theorem gate_released_after_return s :
  reachable s →
  (apply_pc s = A_idle →
   is_updating (world s) = false ∧
   ∀ env w' evs, UpdateFirmwareFromSD env (world s) = Returned () w' evs →
                 is_updating w' = false) ∧
  (fetch_pc s = F_idle →
   is_downloading (world s) = false ∧
   ∀ env w' evs, CheckAPIForUpdates env (world s) = Returned () w' evs →
                 is_downloading w' = false).
Proof.
  intros [Happly Hfetch]%gates_match_reachable. split; intros Hidle.
  - unfold apply_gate_ok in Happly. rewrite Hidle in Happly.
    split; [exact Happly|]. intros env w' evs. by apply UpdateFirmwareFromSD_releases.
  - unfold fetch_gate_ok in Hfetch. rewrite Hidle in Hfetch.
    split; [exact Hfetch|]. intros env w' evs. by apply CheckAPIForUpdates_releases.
Qed.

Lemma gate_released_after_return_witness :
  reachable fetched_state ∧
  apply_pc fetched_state = A_idle ∧
  fetch_pc fetched_state = F_idle ∧
  is_updating (world fetched_state) = false ∧
  is_downloading (world fetched_state) = false ∧
  (∀ w' evs, UpdateFirmwareFromSD env_refused (world fetched_state) =
               Returned () w' evs → is_updating w' = false) ∧
  (∀ w' evs, CheckAPIForUpdates env_mount_fails (world fetched_state) =
               Returned () w' evs → is_downloading w' = false).
Proof.
  assert (Hreach : reachable fetched_state)
    by apply run_schedule_reachable, reachable_boot.
  destruct (gate_released_after_return fetched_state Hreach) as [Happly Hfetch].
  destruct (Happly eq_refl) as [Hup Hup']. destruct (Hfetch eq_refl) as [Hdown Hdown'].
  split; [exact Hreach|]. split; [reflexivity|]. split; [reflexivity|].
  split; [exact Hup|]. split; [exact Hdown|].
  split; [exact (Hup' env_refused)|exact (Hdown' env_mount_fails)].
Defined.

(** * Further properties of the sketch *)

(** ** The apply agent: when it flashes and what it leaves *)

(** X1. Every run of the apply agent that opened the staged image and
    returned, whatever went wrong with the flash, has removed the image
    from the card and has left [is_updating] false. *)
Theorem failed_flash_discards_image env w w' evs :
  UpdateFirmwareFromSD env w = Returned () w' evs →
  In (EvSdOpen "/update.bin" FILE_READ true) evs →
  In (EvSdRemove "/update.bin") evs ∧
  sd_card w' !! "/update.bin" = None ∧
  is_updating w' = false.
Proof.
  cbv [UpdateFirmwareFromSD performUpdate].
  run_cases; intros Heq Hin; simplify_eq;
    first
      [ by (apply In_decide in Hin; vm_compute in Hin)
      | split;
        [ by (apply In_decide; vm_compute)
        | split; [|done];
          cbn [sd_card set_sd_card set_is_updating]; apply lookup_delete_eq ] ].
Qed.

Lemma failed_flash_discards_image_witness :
  UpdateFirmwareFromSD env_refused (boot_world staged_card) =
    Returned () (boot_world ∅)
      [EvSdBegin 5 true; EvSdOpen "/update.bin" FILE_READ true;
       EvSetUpdating true; EvPrintln "SD card initialized successfully.";
       EvPrintln "Try to start update"; EvUpdateBegin 3 false;
       EvPrintln "Not enough space to begin OTA";
       EvFileClose "/update.bin"; EvSdRemove "/update.bin";
       EvSetUpdating false] ∧
  In (EvSdRemove "/update.bin")
     [EvSdBegin 5 true; EvSdOpen "/update.bin" FILE_READ true;
       EvSetUpdating true; EvPrintln "SD card initialized successfully.";
       EvPrintln "Try to start update"; EvUpdateBegin 3 false;
       EvPrintln "Not enough space to begin OTA";
       EvFileClose "/update.bin"; EvSdRemove "/update.bin";
       EvSetUpdating false] ∧
  sd_card (boot_world ∅) !! "/update.bin" = None ∧
  is_updating (boot_world ∅) = false.
Proof.
  assert (Hrun : UpdateFirmwareFromSD env_refused (boot_world staged_card) =
    Returned () (boot_world ∅)
      [EvSdBegin 5 true; EvSdOpen "/update.bin" FILE_READ true;
       EvSetUpdating true; EvPrintln "SD card initialized successfully.";
       EvPrintln "Try to start update"; EvUpdateBegin 3 false;
       EvPrintln "Not enough space to begin OTA";
       EvFileClose "/update.bin"; EvSdRemove "/update.bin";
       EvSetUpdating false]) by (by vm_compute).
  split; [exact Hrun|].
  apply (failed_flash_discards_image _ _ _ _ Hrun).
  apply In_decide. by vm_compute.
Defined.

(** X2. A flash is begun exactly when the agent gets past its entry check, the
    card mounts and [/update.bin] is there and not empty; the size given
    to [Update.begin] is the length of the file. *)
Theorem flash_begins_iff_image_ready env w size ok :
  In (EvUpdateBegin size ok) (result_events (UpdateFirmwareFromSD env w)) ↔
  is_downloading w = false ∧ sd_begin_ok env = true ∧ ok = update_begin_ok env ∧
  ∃ image, sd_card w !! "/update.bin" = Some image ∧
           size = length image ∧ 0 < size.
Proof.
  cbv [UpdateFirmwareFromSD].
  destruct (is_downloading w) eqn:Hgate; run.
  { split; [intros Hin; apply In_decide in Hin; by vm_compute in Hin|].
    by intros (? & _). }
  destruct (sd_begin_ok env) eqn:Hmount; run.
  2:{ split; [intros Hin; apply In_decide in Hin; by vm_compute in Hin|].
      by intros (_ & ? & _). }
  destruct (sd_card w !! "/update.bin") as [image|] eqn:Hfile; run.
  2:{ split; [intros Hin; apply In_decide in Hin; by vm_compute in Hin|].
      by intros (_ & _ & _ & image' & ? & _). }
  rewrite file_content_set_is_updating, (file_content_lookup _ _ _ Hfile).
  case_bool_decide as Hsize; run.
  2:{ split; [intros Hin; apply In_decide in Hin; by vm_compute in Hin|].
      intros (_ & _ & _ & image' & [= <-] & -> & ?). lia. }
  cbv [performUpdate]. run.
  assert (Hin : ∀ rest,
    (∀ size' ok', ¬ In (EvUpdateBegin size' ok') rest) →
    In (EvUpdateBegin size ok)
       (EvSdBegin SD_CS_PIN true :: EvSdOpen "/update.bin" FILE_READ true ::
        EvSetUpdating true :: EvPrintln "SD card initialized successfully." ::
        EvPrintln "Try to start update" ::
        EvUpdateBegin (length image) (update_begin_ok env) :: rest) ↔
    size = length image ∧ ok = update_begin_ok env).
  { intros rest Hrest. cbn [In]. split.
    - intros [|[|[|[|[|[[= <- <-]|Hin]]]]]]; try done. by apply Hrest in Hin.
    - intros [-> ->]. tauto. }
  match goal with
  | |- In _ (result_events ?r) ↔ _ =>
      assert (Hr : ∃ rest, result_events r =
        EvSdBegin SD_CS_PIN true :: EvSdOpen "/update.bin" FILE_READ true ::
        EvSetUpdating true :: EvPrintln "SD card initialized successfully." ::
        EvPrintln "Try to start update" ::
        EvUpdateBegin (length image) (update_begin_ok env) :: rest ∧
        ∀ size' ok', ¬ In (EvUpdateBegin size' ok') rest)
  end.
  { run_cases; cbn [result_events]; eexists; (split; [reflexivity|]);
      intros size' ok' Hbegin; apply In_decide in Hbegin; by vm_compute in Hbegin. }
  destruct Hr as (rest & -> & Hrest). rewrite (Hin rest Hrest).
  split.
  - intros [-> ->]. repeat split. exists image. by repeat split.
  - intros (_ & _ & -> & image' & [= <-] & -> & _). done.
Qed.

(** X3. Whatever the [Update] library answers, [performUpdate] leaves the
    flags and the card alone; it restarts exactly when the three answers
    are good, asks for the error code exactly when the finalize failed,
    and asks whether the update is finished only after a finalize that
    succeeded. *)
Theorem performUpdate_outcome updateSource updateSize env w code finished :
  let r := performUpdate updateSource updateSize env w in
  result_world r = w ∧
  restarted r = flash_accepted env ∧
  (In (EvUpdateGetError code) (result_events r) ↔
   update_begin_ok env = true ∧ update_end_ok env = false ∧
   code = update_error env) ∧
  (In (EvUpdateIsFinished finished) (result_events r) ↔
   update_begin_ok env = true ∧ update_end_ok env = true ∧
   finished = update_is_finished env).
Proof.
  cbv [performUpdate flash_accepted].
  run_cases; cbn [result_world result_events restarted andb In];
    (split; [done|]); (split; [done|]); split; split;
    first [ by intros (? & ? & ?)
          | by intros (? & ? & ->); tauto
          | intros Hin; repeat destruct Hin as [Hin|Hin]; done 
          | intros Hin; repeat (destruct Hin as [Hin|Hin]; try done); by simplify_eq ].
Qed.

(** X4. A run of the apply agent never touches [is_downloading], changes the
    card at most by removing [/update.bin], and leaves in its trace only
    prints, writes of [is_updating], the mount, the read-open, the close,
    the removal, [Update] calls and the restart: no network request, no
    file write. *)
Theorem apply_run_frame env w :
  let r := UpdateFirmwareFromSD env w in
  is_downloading (result_world r) = is_downloading w ∧
  (sd_card (result_world r) = sd_card w ∨
   sd_card (result_world r) = delete "/update.bin" (sd_card w)) ∧
  Forall (λ e, apply_event e = true) (result_events r).
Proof.
  cbv [UpdateFirmwareFromSD performUpdate].
  run_cases; cbn [result_world result_events is_downloading sd_card
                  set_is_updating set_sd_card];
    (split; [done|]); (split; [by (left + right)|]); by repeat constructor.
Qed.

(** ** The fetch agent: what it touches and when it downloads *)

Ltac fetch_events :=
  repeat first
    [ apply Forall_nil
    | apply Forall_cons; split; [reflexivity|]
    | apply Forall_app; split
    | apply Forall_map, Forall_true; intros ?; reflexivity ].

(** Every fetch run returns; what it leaves. *)
Lemma fetch_run_returns env w :
  ∃ w' evs,
    CheckAPIForUpdates env w = Returned () w' evs ∧
    is_updating w' = is_updating w ∧
    (∀ path, path ≠ "/update.bin" → sd_card w' !! path = sd_card w !! path) ∧
    Forall (λ e, fetch_event e = true) evs.
Proof.
  cbv [CheckAPIForUpdates].
  run_cases; do 2 eexists; (split; [reflexivity|]);
    cbn [is_updating sd_card set_is_downloading set_sd_card];
    (split; [done|]); (split; [|by fetch_events]);
    intros path Hpath; try done.
  by rewrite lookup_alter_ne, lookup_insert_ne.
Qed.

(** X5. A run of the fetch agent always returns: it never restarts the chip.
    It never touches [is_updating], never touches a file other than
    [/update.bin], and leaves in its trace only prints, writes of
    [is_downloading], the mount, the write-open, file writes, the close and
    network calls: no [Update] call, no removal. *)
Theorem fetch_run_frame env w :
  ∃ w' evs,
    CheckAPIForUpdates env w = Returned () w' evs ∧
    is_updating w' = is_updating w ∧
    (∀ path, path ≠ "/update.bin" → sd_card w' !! path = sd_card w !! path) ∧
    Forall (λ e, fetch_event e = true) evs.
Proof. apply fetch_run_returns. Qed.

Lemma fetch_run_frame_witness :
  "/config.txt" ≠ "/update.bin" ∧
  ∃ w' evs,
    CheckAPIForUpdates env_ok (boot_world other_files_card) = Returned () w' evs ∧
    is_updating w' = false ∧
    sd_card w' !! "/config.txt" = Some [x41; x42] ∧
    Forall (λ e, fetch_event e = true) evs.
Proof.
  assert (Hpath : "/config.txt" ≠ "/update.bin") by discriminate.
  split; [exact Hpath|].
  destruct (fetch_run_frame env_ok (boot_world other_files_card))
    as (w' & evs & Hrun & Hup & Hfiles & Hevs).
  exists w', evs. split; [exact Hrun|]. split; [exact Hup|].
  split; [|exact Hevs]. exact (Hfiles "/config.txt" Hpath).
Defined.

(** X6. The card changes only when a download starts: when the agent is kept
    out by [is_updating], the connection fails, the answer is neither 200
    nor 301, the mount fails or the file cannot be opened, the run returns
    with the card as it was and without a file write. *)
Theorem card_unchanged_without_download env w :
  is_updating w = true ∨ download_starts env = false →
  ∃ w' evs,
    CheckAPIForUpdates env w = Returned () w' evs ∧
    sd_card w' = sd_card w ∧
    Forall (λ e, ∀ path data, e ≠ EvFileWrite path data) evs.
Proof.
  unfold download_starts. intros Hno. cbv [CheckAPIForUpdates].
  run_cases;
    try (exfalso; destruct Hno as [Hno|Hno]; [congruence|];
         repeat match goal with H : ?x = true |- _ => rewrite H in Hno end;
         done).
  all: do 2 eexists; (split; [reflexivity|]); (split; [done|]);
    by repeat constructor.
Qed.

Lemma card_unchanged_without_download_witness :
  (is_updating (boot_world staged_card) = true ∨ download_starts env_not_found = false) ∧
  ∃ w' evs,
    CheckAPIForUpdates env_not_found (boot_world staged_card) = Returned () w' evs ∧
    sd_card w' = sd_card (boot_world staged_card) ∧
    Forall (λ e, ∀ path data, e ≠ EvFileWrite path data) evs.
Proof.
  assert (Hno : is_updating (boot_world staged_card) = true ∨
                download_starts env_not_found = false) by (right; reflexivity).
  split; [exact Hno|].
  exact (card_unchanged_without_download env_not_found (boot_world staged_card) Hno).
Defined.

(** X7. [http.end()] is called exactly when the agent got in, the server
    answered 200 or 301 and the card mounted: the [return] of line 133
    leaves the function before it, and the other answers never reach
    it. *)
Theorem http_end_iff_mounted_for_download env w :
  In EvHttpEnd (result_events (CheckAPIForUpdates env w)) ↔
  is_updating w = false ∧ http_begin_ok env = true ∧
  (http_get_code env = HTTP_CODE_OK ∨
   http_get_code env = HTTP_CODE_MOVED_PERMANENTLY) ∧
  sd_begin_ok env = true.
Proof.
  assert (Hcode : bool_decide (http_get_code env = HTTP_CODE_OK)
                  || bool_decide (http_get_code env = HTTP_CODE_MOVED_PERMANENTLY) = true ↔
                  http_get_code env = HTTP_CODE_OK ∨
                  http_get_code env = HTTP_CODE_MOVED_PERMANENTLY).
  { rewrite orb_true_iff, !bool_decide_eq_true. done. }
  rewrite <- Hcode. clear Hcode.
  cbv [CheckAPIForUpdates].
  run_cases; cbn [result_events];
    (split;
     [ intros Hin; repeat split; try done;
       exfalso; revert Hin; rewrite In_decide; by vm_compute
     | try by intros (? & ? & ? & ?) ]).
  - intros (_ & _ & Hcode & _).
    match goal with
    | H : bool_decide (_ = HTTP_CODE_ALREADY_REPORTED) = true |- _ =>
        apply bool_decide_eq_true in H; by rewrite H in Hcode
    end.
  - intros _. cbn [In]. rewrite !in_app_iff. cbn [In]. auto 30.
  - intros _. cbn [In]. auto 30.
Qed.

(** A run in which the download starts, step by step. *)
Lemma download_run env w :
  is_updating w = false →
  download_starts env = true →
  ∃ w' evs,
    CheckAPIForUpdates env w = Returned () w' evs ∧
    sd_card w' !! "/update.bin" =
      Some (take (deliverable (stream_arrivals env)) (http_body env)) ∧
    written_data evs = take (deliverable (stream_arrivals env)) (http_body env) ∧
    In (EvPrintln "File saved successfully.") evs ∧
    is_downloading w' = false.
Proof.
  unfold download_starts. intros Hgate Hstart.
  apply andb_prop in Hstart as [Hstart Hopen].
  apply andb_prop in Hstart as [Hstart Hmount].
  apply andb_prop in Hstart as [Hbegin Hcode].
  assert (Hcode1 : bool_decide (http_get_code env = HTTP_CODE_ALREADY_REPORTED) = false).
  { apply bool_decide_eq_false_2. intros Heq. rewrite Heq in Hcode. done. }
  cbv [CheckAPIForUpdates]. run.
  do 2 eexists. split; [reflexivity|].
  cbn [sd_card set_sd_card set_is_downloading is_downloading].
  rewrite stream_chunks_concat. split; [|split; [|split]]; [| | |done].
  - by rewrite lookup_alter_eq, lookup_insert_eq.
  - change (?a :: ?b :: ?c :: ?d :: ?e :: ?f :: ?g :: ?l)
      with ([a; b; c; d; e; f; g] ++ l).
    rewrite !written_data_app, written_data_writes, stream_chunks_concat.
    cbn. by rewrite !app_nil_r.
  - rewrite ?in_app_iff; cbn [In]; rewrite ?in_app_iff; cbn [In].
    auto 30.
Qed.

(** X8. When a download starts, the file ends up holding the bytes that
    arrived before the first read that timed out empty-handed, a prefix of
    the response body, and the run prints "File saved successfully."
    whether or not that is the whole body. *)
Theorem download_stores_what_arrived env w :
  is_updating w = false →
  download_starts env = true →
  ∃ w' evs,
    CheckAPIForUpdates env w = Returned () w' evs ∧
    sd_card w' !! "/update.bin" =
      Some (take (deliverable (stream_arrivals env)) (http_body env)) ∧
    written_data evs = take (deliverable (stream_arrivals env)) (http_body env) ∧
    In (EvPrintln "File saved successfully.") evs ∧
    is_downloading w' = false.
Proof. apply download_run. Qed.

Lemma download_stores_what_arrived_witness :
  is_updating (boot_world stale_card) = false ∧
  download_starts env_stalls = true ∧
  ∃ w' evs,
    CheckAPIForUpdates env_stalls (boot_world stale_card) = Returned () w' evs ∧
    sd_card w' !! "/update.bin" = Some [x01; x02] ∧
    written_data evs = [x01; x02] ∧
    In (EvPrintln "File saved successfully.") evs ∧
    is_downloading w' = false.
Proof.
  split; [reflexivity|]. split; [reflexivity|].
  exact (download_stores_what_arrived env_stalls (boot_world stale_card)
           eq_refl eq_refl).
Defined.

(** ** A download followed by an apply run *)

(** X9. What the apply agent flashes is what the fetch agent stored.  After
    a fetch run that got in and whose download stored at least one byte,
    the next apply run whose [SD.begin] succeeds calls [Update.begin] with
    exactly the stored length, and makes no [Update] call before it.  When
    [Update.begin] accepts, [Update.writeStream] comes next, on exactly the
    stored bytes, whether or not they are the whole body; when it refuses,
    no other [Update] call and no restart follow.  The run restarts iff
    [Update.begin], [Update.end] and [Update.isFinished] all answer
    true. *)
Theorem apply_flashes_what_was_stored env_f env_a w :
  is_updating w = false →
  download_starts env_f = true →
  sd_begin_ok env_a = true →
  let stored := take (deliverable (stream_arrivals env_f)) (http_body env_f) in
  0 < length stored →
  ∃ w1 evs1 pre post,
    CheckAPIForUpdates env_f w = Returned () w1 evs1 ∧
    result_events (UpdateFirmwareFromSD env_a w1) =
      pre ++ EvUpdateBegin (length stored) (update_begin_ok env_a) :: post ∧
    Forall (λ e, is_flash_or_restart e = false) pre ∧
    (update_begin_ok env_a = true →
     ∃ post', post = EvUpdateWriteStream stored (update_written env_a) :: post') ∧
    (update_begin_ok env_a = false →
     Forall (λ e, is_flash_or_restart e = false) post) ∧
    restarted (UpdateFirmwareFromSD env_a w1) = flash_accepted env_a.
Proof.
  intros Hgate Hstart Hmount stored Hlen.
  destruct (download_run env_f w Hgate Hstart)
    as (w1 & evs1 & Hrun & Hfile & _ & _ & Hdown).
  exists w1, evs1. fold stored in Hfile.
  assert (Hsize : bool_decide (0 < length stored) = true)
    by by apply bool_decide_eq_true.
  cbv [UpdateFirmwareFromSD flash_accepted]. run.
  rewrite !file_content_set_is_updating, !(file_content_lookup _ _ _ Hfile).
  run. cbv [performUpdate]. run.
  exists [EvSdBegin SD_CS_PIN true; EvSdOpen "/update.bin" FILE_READ true;
          EvSetUpdating true; EvPrintln "SD card initialized successfully.";
          EvPrintln "Try to start update"].
  destruct (update_begin_ok env_a) eqn:Hbegin; run.
  - rewrite !file_content_set_is_updating, !(file_content_lookup _ _ _ Hfile).
    run_cases; cbn [result_events restarted andb app];
      eexists; (split; [exact Hrun|]); (split; [reflexivity|]);
      (split; [by repeat constructor|]);
      (split; [intros _; eexists; reflexivity|]); by split.
  - cbn [result_events restarted andb app].
    eexists. split; [exact Hrun|]. split; [reflexivity|].
    split; [by repeat constructor|]. split; [done|].
    split; [|done]. intros _. by repeat constructor.
Qed.

Lemma apply_flashes_what_was_stored_witness :
  is_updating (boot_world ∅) = false ∧
  download_starts env_stalls = true ∧
  sd_begin_ok env_stalls = true ∧
  0 < length (take (deliverable (stream_arrivals env_stalls)) (http_body env_stalls)) ∧
  ∃ w1 evs1 pre post',
    CheckAPIForUpdates env_stalls (boot_world ∅) = Returned () w1 evs1 ∧
    result_events (UpdateFirmwareFromSD env_stalls w1) =
      pre ++ EvUpdateBegin 2 true :: EvUpdateWriteStream [x01; x02] 2 :: post' ∧
    Forall (λ e, is_flash_or_restart e = false) pre ∧
    restarted (UpdateFirmwareFromSD env_stalls w1) = true.
Proof.
  assert (Hlen : 0 < length (take (deliverable (stream_arrivals env_stalls))
                                  (http_body env_stalls)))
    by (vm_compute; lia).
  repeat (split; [first [reflexivity | exact Hlen]|]).
  destruct (apply_flashes_what_was_stored env_stalls env_stalls (boot_world ∅)
              eq_refl eq_refl eq_refl Hlen)
    as (w1 & evs1 & pre & post & Hrun & Hevs & Hpre & Hstream & _ & Hrestart).
  destruct (Hstream eq_refl) as (post' & Hpost).
  exists w1, evs1, pre, post'. split; [exact Hrun|].
  split; [|split; [exact Hpre|exact Hrestart]].
  rewrite Hevs, Hpost. reflexivity.
Defined.

(** X10. A download during which nothing arrives leaves an empty [/update.bin];
    the next apply run finds it, calls nothing of [Update], removes it and
    returns. *)
Theorem silent_download_is_discarded env_f env_a w :
  is_updating w = false →
  download_starts env_f = true →
  deliverable (stream_arrivals env_f) = 0 ∨ http_body env_f = [] →
  sd_begin_ok env_a = true →
  ∃ w1 evs1 w2 evs2,
    CheckAPIForUpdates env_f w = Returned () w1 evs1 ∧
    sd_card w1 !! "/update.bin" = Some [] ∧
    UpdateFirmwareFromSD env_a w1 = Returned () w2 evs2 ∧
    sd_card w2 !! "/update.bin" = None ∧
    Forall (λ e, is_flash_op e = false) evs2.
Proof.
  intros Hgate Hstart Hnothing Hmount.
  destruct (download_run env_f w Hgate Hstart)
    as (w1 & evs1 & Hrun & Hfile & _ & _ & Hdown).
  assert (Hempty : take (deliverable (stream_arrivals env_f)) (http_body env_f) = []).
  { destruct Hnothing as [-> | ->]; [apply take_0|apply take_nil]. }
  rewrite Hempty in Hfile.
  exists w1, evs1. cbv [UpdateFirmwareFromSD]. run.
  rewrite !file_content_set_is_updating, !(file_content_lookup _ _ _ Hfile).
  change (bool_decide (0 < length [])) with false. run.
  do 2 eexists. split; [exact Hrun|]. split; [done|].
  split; [reflexivity|]. split; [|by repeat constructor].
  cbn [sd_card set_sd_card set_is_updating]. apply lookup_delete_eq.
Qed.

Lemma silent_download_is_discarded_witness :
  is_updating (boot_world ∅) = false ∧
  download_starts env_silent = true ∧
  (deliverable (stream_arrivals env_silent) = 0 ∨ http_body env_silent = []) ∧
  sd_begin_ok env_ok = true ∧
  ∃ w1 evs1 w2 evs2,
    CheckAPIForUpdates env_silent (boot_world ∅) = Returned () w1 evs1 ∧
    sd_card w1 !! "/update.bin" = Some [] ∧
    UpdateFirmwareFromSD env_ok w1 = Returned () w2 evs2 ∧
    sd_card w2 !! "/update.bin" = None ∧
    Forall (λ e, is_flash_op e = false) evs2.
Proof.
  assert (Hnothing : deliverable (stream_arrivals env_silent) = 0 ∨
                     http_body env_silent = []) by (left; reflexivity).
  repeat (split; [first [reflexivity | exact Hnothing]|]).
  exact (silent_download_is_discarded env_silent env_ok (boot_world ∅)
           eq_refl eq_refl Hnothing eq_refl).
Defined.

(** ** All interleavings: files the sketch does not own *)

Lemma apply_step_other_files pc env w path :
  path ≠ "/update.bin" →
  sd_card (result_world (apply_step pc env w)) !! path = sd_card w !! path.
Proof.
  intros Hpath. destruct pc; cbv [apply_step performUpdate];
    run_cases; cbn [result_world sd_card set_is_updating set_sd_card]; try done.
  all: by rewrite lookup_delete_ne.
Qed.

Lemma fetch_step_other_files pc env w path :
  path ≠ "/update.bin" →
  sd_card (result_world (fetch_step pc env w)) !! path = sd_card w !! path.
Proof.
  intros Hpath. destruct pc; cbv [fetch_step];
    run_cases; cbn [result_world sd_card set_is_downloading set_sd_card]; try done.
  by rewrite lookup_alter_ne, lookup_insert_ne.
Qed.

Lemma sys_step_other_files task env s path :
  path ≠ "/update.bin" →
  sd_card (world (sys_step task env s)) !! path = sd_card (world s) !! path.
Proof.
  intros Hpath. destruct task; unfold sys_step.
  - rewrite <- (apply_step_other_files (apply_pc s) env (world s) path Hpath).
    by destruct (apply_step (apply_pc s) env (world s)).
  - rewrite <- (fetch_step_other_files (fetch_pc s) env (world s) path Hpath).
    by destruct (fetch_step (fetch_pc s) env (world s)).
Qed.

(** X11. Whatever the two tasks do, in whatever order and through however many
    restarts, every file on the card other than [/update.bin] stays as it
    was at power-on. *)
Theorem other_files_untouched schedule card path :
  path ≠ "/update.bin" →
  sd_card (world (run_schedule schedule (boot card))) !! path = card !! path.
Proof.
  intros Hpath. change (card !! path) with (sd_card (world (boot card)) !! path).
  generalize (boot card). induction schedule as [|[task env] schedule IH]; intros s.
  - done.
  - cbn [run_schedule foldl]. fold (run_schedule schedule (sys_step task env s)).
    by rewrite IH, sys_step_other_files.
Qed.

Lemma other_files_untouched_witness :
  "/config.txt" ≠ "/update.bin" ∧
  sd_card (world (run_schedule (overlap_schedule ++ replicate 4 (FetchTask, env_stalls)
                                ++ replicate 3 (ApplyTask, env_ok))
                               (boot other_files_card))) !! "/config.txt" =
  other_files_card !! "/config.txt".
Proof.
  assert (Hpath : "/config.txt" ≠ "/update.bin") by discriminate.
  split; [exact Hpath|].
  exact (other_files_untouched _ other_files_card "/config.txt" Hpath).
Defined.

(** ** The restart loop *)

Lemma run_schedule_app schedule1 schedule2 s :
  run_schedule (schedule1 ++ schedule2) s =
  run_schedule schedule2 (run_schedule schedule1 s).
Proof. apply foldl_app. Qed.

Lemma flash_cycle card image env :
  card !! "/update.bin" = Some image →
  image ≠ [] →
  sd_begin_ok env = true →
  flash_accepted env = true →
  run_schedule (replicate 5 (ApplyTask, env)) (boot card) = boot card.
Proof.
  unfold flash_accepted. intros Hfile Himage Hmount Haccept.
  apply andb_prop in Haccept as [Haccept Hfinished].
  apply andb_prop in Haccept as [Hbegin Hend].
  assert (Hsize : bool_decide (0 < length image) = true).
  { apply bool_decide_eq_true. destruct image; [done|cbn; lia]. }
  cbn [run_schedule replicate foldl].
  assert (H1 : sys_step ApplyTask env (boot card) =
               {| world := boot_world card; apply_pc := A_mount; fetch_pc := F_idle |}).
  { unfold sys_step. cbn [boot world apply_pc fetch_pc]. cbv [apply_step]. by run. }
  rewrite H1. clear H1.
  assert (H2 : sys_step ApplyTask env
                 {| world := boot_world card; apply_pc := A_mount; fetch_pc := F_idle |} =
               {| world := boot_world card; apply_pc := A_open; fetch_pc := F_idle |}).
  { unfold sys_step. cbn [world apply_pc fetch_pc]. cbv [apply_step]. by run. }
  rewrite H2. clear H2.
  assert (H3 : sys_step ApplyTask env
                 {| world := boot_world card; apply_pc := A_open; fetch_pc := F_idle |} =
               {| world := boot_world card; apply_pc := A_gate "/update.bin";
                  fetch_pc := F_idle |}).
  { unfold sys_step. cbn [world apply_pc fetch_pc]. cbv [apply_step].
    run_prims. cbn [sd_card boot_world]. rewrite Hfile. by run. }
  rewrite H3. clear H3.
  assert (H4 : sys_step ApplyTask env
                 {| world := boot_world card; apply_pc := A_gate "/update.bin";
                    fetch_pc := F_idle |} =
               {| world := set_is_updating true (boot_world card);
                  apply_pc := A_flash "/update.bin"; fetch_pc := F_idle |}).
  { unfold sys_step. cbn [world apply_pc fetch_pc]. cbv [apply_step]. by run. }
  rewrite H4. clear H4.
  unfold sys_step. cbn [world apply_pc fetch_pc]. cbv [apply_step performUpdate].
  run_prims. rewrite (file_content_lookup _ _ image) by exact Hfile.
  by run_cases.
Qed.

(** A run of the apply agent on an image that the library accepts. *)
Lemma accepted_run card image env :
  card !! "/update.bin" = Some image →
  image ≠ [] →
  sd_begin_ok env = true →
  flash_accepted env = true →
  ∃ evs,
    UpdateFirmwareFromSD env (boot_world card) =
      Restarted (set_is_updating true (boot_world card)) evs ∧
    In (EvUpdateBegin (length image) true) evs ∧
    In (EvUpdateWriteStream image (update_written env)) evs ∧
    In EvRestart evs ∧
    ¬ In (EvSdRemove "/update.bin") evs.
Proof.
  unfold flash_accepted. intros Hfile Himage Hmount Haccept.
  apply andb_prop in Haccept as [Haccept Hfinished].
  apply andb_prop in Haccept as [Hbegin Hend].
  assert (Hsize : bool_decide (0 < length image) = true).
  { apply bool_decide_eq_true. destruct image; [done|cbn; lia]. }
  assert (Hgate : is_downloading (boot_world card) = false) by done.
  assert (Hopen : sd_card (boot_world card) !! "/update.bin" = Some image)
    by exact Hfile.
  cbv [UpdateFirmwareFromSD performUpdate]. run.
  rewrite !file_content_set_is_updating,
    !(file_content_lookup (boot_world card) _ image) by exact Hfile.
  run_cases;
    rewrite ?file_content_set_is_updating,
      ?(file_content_lookup (boot_world card) _ image) by exact Hfile;
    (eexists; split; [reflexivity|]); cbn [In];
    (split; [by auto 20|]); (split; [by auto 20|]); (split; [by auto 20|]);
    intros Hin; by repeat (destruct Hin as [Hin|Hin]; [discriminate Hin|]).
Qed.

(** X12. With a non-empty [/update.bin] on the card, a card that mounts and
    an [Update] library that accepts the image ([Update.begin],
    [Update.end] and [Update.isFinished] all answer true), a run of the
    apply agent from power-on begins a flash of the length of the image,
    streams the image, and restarts the chip without removing the image;
    the apply task alone thus goes from power-on back to the very state of
    power-on, the image still on the card, for any number of such cycles:
    the chip flashes the same image and restarts for ever. *)
Theorem accepted_image_is_flashed_for_ever card image env n :
  card !! "/update.bin" = Some image →
  image ≠ [] →
  sd_begin_ok env = true →
  flash_accepted env = true →
  (∃ evs,
     UpdateFirmwareFromSD env (boot_world card) =
       Restarted (set_is_updating true (boot_world card)) evs ∧
     In (EvUpdateBegin (length image) true) evs ∧
     In (EvUpdateWriteStream image (update_written env)) evs ∧
     In EvRestart evs ∧
     ¬ In (EvSdRemove "/update.bin") evs) ∧
  run_schedule (replicate (5 * n) (ApplyTask, env)) (boot card) = boot card.
Proof.
  intros Hfile Himage Hmount Haccept.
  split; [by apply accepted_run|].
  induction n as [|n IH]; [done|].
  replace (5 * S n) with (5 + 5 * n) by lia.
  rewrite replicate_add, run_schedule_app.
  by rewrite (flash_cycle card image env Hfile Himage Hmount Haccept).
Qed.

Lemma accepted_image_is_flashed_for_ever_witness :
  staged_card !! "/update.bin" = Some firmware ∧
  firmware ≠ [] ∧
  sd_begin_ok env_ok = true ∧
  flash_accepted env_ok = true ∧
  (∃ evs,
     UpdateFirmwareFromSD env_ok (boot_world staged_card) =
       Restarted (set_is_updating true (boot_world staged_card)) evs ∧
     In (EvUpdateBegin (length firmware) true) evs ∧
     In (EvUpdateWriteStream firmware (update_written env_ok)) evs ∧
     In EvRestart evs ∧
     ¬ In (EvSdRemove "/update.bin") evs) ∧
  run_schedule (replicate (5 * 3) (ApplyTask, env_ok)) (boot staged_card) =
    boot staged_card.
Proof.
  assert (Himage : firmware ≠ []) by discriminate.
  repeat (split; [first [reflexivity | exact Himage]|]).
  exact (accepted_image_is_flashed_for_ever staged_card firmware env_ok 3
           eq_refl Himage eq_refl eq_refl).
Defined.

(** ** The task loops, each alone *)

Lemma loop_events_prepend evs r :
  loop_events (loop_prepend evs r) = evs ++ loop_events r.
Proof. by destruct r. Qed.

Lemma flash_attempts_app evs1 evs2 :
  flash_attempts (evs1 ++ evs2) = flash_attempts evs1 + flash_attempts evs2.
Proof.
  induction evs1 as [|[| | | | |e] evs1 IH]; cbn [app flash_attempts]; [done..|].
  rewrite IH. lia.
Qed.

Lemma flash_attempts_quiet evs :
  Forall (λ e, is_update_begin e = false) evs →
  flash_attempts (map SysAgent evs) = 0.
Proof.
  induction 1 as [|e evs He _ IH]; [done|].
  cbn [map flash_attempts]. by rewrite He, IH.
Qed.

(** A run that finds no image changes nothing. *)
Lemma no_image_run env w :
  sd_card w !! "/update.bin" = None →
  ∃ evs,
    UpdateFirmwareFromSD env w = Returned () w evs ∧
    Forall (λ e, is_flash_op e = false ∧ writes_gate e = false ∧
                 is_update_begin e = false) evs.
Proof.
  intros Hfile. cbv [UpdateFirmwareFromSD].
  run_cases; (eexists; split; [reflexivity|]); by repeat constructor.
Qed.

Lemma sd_loop_idle envs : ∀ w,
  sd_card w !! "/update.bin" = None →
  ∃ evs,
    SDUpdaterLoop envs w = StillLooping w evs ∧
    flash_attempts evs = 0 ∧
    Forall (λ e, match e with
                 | SysAgent a => is_flash_op a = false ∧ writes_gate a = false
                 | SysDelay ms => ms = SD_Timeout
                 | _ => False
                 end) evs.
Proof.
  induction envs as [|env envs IH]; intros w Hfile.
  - exists []. by repeat split.
  - destruct (no_image_run env w Hfile) as (evs & Hrun & Hquiet).
    destruct (IH w Hfile) as (evs' & Hloop & Hnone & Hquiet').
    cbn [SDUpdaterLoop]. rewrite Hrun, Hloop. cbn [loop_prepend].
    eexists. split; [reflexivity|]. split.
    + cbn [app flash_attempts]. rewrite flash_attempts_app, Hnone.
      rewrite flash_attempts_quiet; [done|].
      eapply Forall_impl; [exact Hquiet|]. by intros e (_ & _ & ?).
    + apply Forall_cons. split; [done|]. apply Forall_app. split; [|done].
      apply Forall_map. eapply Forall_impl; [exact Hquiet|].
      by intros e (? & ? & _).
Qed.

(** X13. While no [/update.bin] is on the card, the apply task alone can go
    round any number of times: it never restarts, never calls [Update],
    never writes a flag, and leaves the world as it was; its trace holds
    only the one-minute delays and what the idle runs print and probe. *)
Theorem sd_loop_without_image_idles envs w :
  sd_card w !! "/update.bin" = None →
  ∃ evs,
    SDUpdaterLoop envs w = StillLooping w evs ∧
    flash_attempts evs = 0 ∧
    Forall (λ e, match e with
                 | SysAgent a => is_flash_op a = false ∧ writes_gate a = false
                 | SysDelay ms => ms = SD_Timeout
                 | _ => False
                 end) evs.
Proof. apply sd_loop_idle. Qed.

Lemma sd_loop_without_image_idles_witness :
  sd_card (boot_world ∅) !! "/update.bin" = None ∧
  ∃ evs,
    SDUpdaterLoop [env_ok; env_mount_fails; env_ok] (boot_world ∅) =
      StillLooping (boot_world ∅) evs ∧
    flash_attempts evs = 0 ∧
    Forall (λ e, match e with
                 | SysAgent a => is_flash_op a = false ∧ writes_gate a = false
                 | SysDelay ms => ms = SD_Timeout
                 | _ => False
                 end) evs.
Proof.
  split; [reflexivity|].
  exact (sd_loop_without_image_idles [env_ok; env_mount_fails; env_ok]
           (boot_world ∅) eq_refl).
Defined.

(** One run begins at most one flash, and after a run that began one the
    chip has restarted or the image is gone. *)
Lemma apply_run_attempts env w :
  let r := UpdateFirmwareFromSD env w in
  flash_attempts (map SysAgent (result_events r)) = 0 ∨
  flash_attempts (map SysAgent (result_events r)) = 1 ∧
  (restarted r = true ∨ sd_card (result_world r) !! "/update.bin" = None).
Proof.
  cbv [UpdateFirmwareFromSD performUpdate].
  run_cases; cbn [result_events result_world restarted map flash_attempts
                  is_update_begin Nat.add];
    first [ by left | right; split; [done|] ];
    first [ by left
          | right; cbn [sd_card set_sd_card set_is_updating];
            apply lookup_delete_eq ].
Qed.

(** X14. The apply task alone begins at most one flash, however long it runs:
    a flash that is not accepted costs the task its image, and a flash
    that is accepted ends the task in a restart. *)
Theorem sd_loop_flashes_at_most_once envs w :
  (flash_attempts (loop_events (SDUpdaterLoop envs w)) ≤ 1)%nat.
Proof.
  revert w. induction envs as [|env envs IH]; intros w; [cbn; lia|].
  cbn [SDUpdaterLoop].
  pose proof (apply_run_attempts env w) as Hrun. cbv zeta in Hrun.
  destruct (UpdateFirmwareFromSD env w) as [[] w' evs|w' evs];
    cbn [result_events result_world restarted] in Hrun.
  - rewrite loop_events_prepend. cbn [app flash_attempts].
    rewrite flash_attempts_app.
    destruct Hrun as [-> | [-> [?|Hgone]]]; [apply IH|done|].
    destruct (sd_loop_idle envs w' Hgone) as (evs' & Hloop & Hnone & _).
    rewrite Hloop. cbn [loop_events]. lia.
  - cbn [loop_events flash_attempts]. destruct Hrun as [-> | [-> _]]; lia.
Qed.

Lemma wifi_loop_run envs : ∀ w,
  ∃ w' evs,
    WiFiUpdaterLoop envs w = StillLooping w' evs ∧
    is_updating w' = is_updating w ∧
    (∀ path, path ≠ "/update.bin" → sd_card w' !! path = sd_card w !! path) ∧
    flash_attempts evs = 0 ∧
    (is_downloading w = false → is_downloading w' = false) ∧
    (is_updating w = true → w' = w).
Proof.
  induction envs as [|env envs IH]; intros w.
  - exists w, []. by repeat split.
  - destruct (fetch_run_returns env w) as (w1 & evs1 & Hrun & Hup & Hfiles & Hevs).
    destruct (IH w1) as (w2 & evs2 & Hloop & Hup' & Hfiles' & Hnone & Hdown & Hsame).
    cbn [WiFiUpdaterLoop]. rewrite Hrun, Hloop. cbn [loop_prepend].
    do 2 eexists. split; [reflexivity|]. repeat split.
    + by rewrite Hup'.
    + intros path Hpath. by rewrite Hfiles', Hfiles.
    + rewrite !flash_attempts_app, Hnone, flash_attempts_quiet; [done|].
      eapply Forall_impl; [exact Hevs|]. by intros [].
    + intros Hgate. apply Hdown.
      by apply (CheckAPIForUpdates_releases env w w1 evs1).
    + intros Hgate. destruct (fetch_denied env w Hgate) as [Hdenied _].
      rewrite Hdenied in Hrun. injection Hrun as Hw _. subst w1.
      by apply Hsame.
Qed.

(** X15. The fetch task alone never restarts the chip, however long it runs.
    It never begins a flash, never touches [is_updating] or a file other
    than [/update.bin], and ends every round with [is_downloading] false;
    while [is_updating] stays set it changes nothing at all. *)
Theorem wifi_loop_never_restarts envs w :
  ∃ w' evs,
    WiFiUpdaterLoop envs w = StillLooping w' evs ∧
    is_updating w' = is_updating w ∧
    (∀ path, path ≠ "/update.bin" → sd_card w' !! path = sd_card w !! path) ∧
    flash_attempts evs = 0 ∧
    (is_downloading w = false → is_downloading w' = false) ∧
    (is_updating w = true → w' = w).
Proof. apply wifi_loop_run. Qed.

Lemma wifi_loop_never_restarts_witness :
  is_downloading (boot_world other_files_card) = false ∧
  "/config.txt" ≠ "/update.bin" ∧
  ∃ w' evs,
    WiFiUpdaterLoop [env_not_found; env_stalls; env_mount_fails]
                    (boot_world other_files_card) = StillLooping w' evs ∧
    is_updating w' = false ∧
    sd_card w' !! "/config.txt" = Some [x41; x42] ∧
    flash_attempts evs = 0 ∧
    is_downloading w' = false.
Proof.
  assert (Hpath : "/config.txt" ≠ "/update.bin") by discriminate.
  split; [reflexivity|]. split; [exact Hpath|].
  destruct (wifi_loop_never_restarts [env_not_found; env_stalls; env_mount_fails]
              (boot_world other_files_card))
    as (w' & evs & Hloop & Hup & Hfiles & Hnone & Hdown & _).
  exists w', evs. split; [exact Hloop|]. split; [exact Hup|].
  split; [exact (Hfiles "/config.txt" Hpath)|]. split; [exact Hnone|].
  exact (Hdown eq_refl).
Defined.

(** ** Start-up *)

Lemma wait_for_WiFi_waiting statuses :
  WL_CONNECTED ∉ statuses →
  wait_for_WiFi statuses = (false, flat_map failed_poll statuses).
Proof.
  induction statuses as [|status statuses IH]; intros Hnot; [done|].
  apply not_elem_of_cons in Hnot as [Hne Hnot].
  cbn [wait_for_WiFi flat_map]. rewrite bool_decide_eq_true_2 by done.
  by rewrite (IH Hnot).
Qed.

Lemma wait_for_WiFi_connected failed rest :
  WL_CONNECTED ∉ failed →
  wait_for_WiFi (failed ++ WL_CONNECTED :: rest) =
  (true, flat_map failed_poll failed ++ [SysWiFiStatus WL_CONNECTED]).
Proof.
  induction failed as [|status failed IH]; intros Hnot; [done|].
  apply not_elem_of_cons in Hnot as [Hne Hnot].
  cbn [app wait_for_WiFi flat_map]. rewrite bool_decide_eq_true_2 by done.
  by rewrite (IH Hnot).
Qed.



Lemma failed_polls_dots failed :
  dots (flat_map failed_poll failed) = length failed ∧
  waited (flat_map failed_poll failed) = (500 * Z.of_nat (length failed))%Z ∧
  Forall (λ e, is_task_create e = false) (flat_map failed_poll failed).
Proof.
  induction failed as [|status failed (IH1 & IH2 & IH3)]; [by repeat split|].
  cbn [flat_map failed_poll app dots waited length]. rewrite IH1, IH2.
  repeat split; [lia|]. by repeat constructor.
Qed.

Lemma first_connected statuses :
  WL_CONNECTED ∈ statuses →
  ∃ failed rest, statuses = failed ++ WL_CONNECTED :: rest ∧ WL_CONNECTED ∉ failed.
Proof.
  induction statuses as [|status statuses IH]; intros Hin.
  - by apply elem_of_nil in Hin.
  - destruct (decide (status = WL_CONNECTED)) as [->|Hne].
    + exists [], statuses. split; [done|]. apply not_elem_of_nil.
    + apply elem_of_cons in Hin as [Heq|Hin]; [done|].
      destruct (IH Hin) as (failed & rest & -> & Hnot).
      exists (status :: failed), rest. split; [done|].
      apply not_elem_of_cons. by split.
Qed.

Lemma WiFiConnection_connected failed rest :
  WL_CONNECTED ∉ failed →
  WiFiConnection (failed ++ WL_CONNECTED :: rest) =
  (true,
   SysWiFiBegin ssid password :: SysAgent (EvPrint "Connecting to WiFi") ::
   (flat_map failed_poll failed ++ [SysWiFiStatus WL_CONNECTED]) ++ [connected_line]).
Proof.
  intros Hnot. unfold WiFiConnection. by rewrite (wait_for_WiFi_connected _ _ Hnot).
Qed.

Lemma WiFiConnection_waiting statuses :
  WL_CONNECTED ∉ statuses →
  WiFiConnection statuses =
  (false,
   SysWiFiBegin ssid password :: SysAgent (EvPrint "Connecting to WiFi") ::
   flat_map failed_poll statuses ++ []).
Proof.
  intros Hnot. unfold WiFiConnection. by rewrite (wait_for_WiFi_waiting _ Hnot).
Qed.



(** X17. [setup] creates the two tasks only after [WiFiConnection] has
    returned: as long as no poll answers [WL_CONNECTED] it is still
    waiting and has created no task, so neither agent runs, the one that
    reads the card included; once a poll answers [WL_CONNECTED] it returns
    and the last two things it did are the creation of the fetch task and
    then of the apply task, each with 10240 words of stack, priority 1,
    pinned to core 1. *)
Theorem setup_creates_tasks_after_WiFi statuses :
  (WL_CONNECTED ∉ statuses →
   ∃ evs, setup statuses = (false, evs) ∧
          Forall (λ e, is_task_create e = false) evs) ∧
  (WL_CONNECTED ∈ statuses →
   ∃ evs, setup statuses = (true, evs ++ created_tasks) ∧
          Forall (λ e, is_task_create e = false) evs).
Proof.
  split.
  - intros Hnot. unfold setup. rewrite (WiFiConnection_waiting _ Hnot).
    eexists. split; [reflexivity|].
    rewrite !app_nil_r. repeat (apply Forall_cons; split; [done|]).
    apply failed_polls_dots.
  - intros (failed & rest & -> & Hnot)%first_connected.
    unfold setup. rewrite (WiFiConnection_connected _ _ Hnot).
    eexists (_ :: _). split; [reflexivity|].
    repeat (apply Forall_cons; split; [done|]).
    repeat (apply Forall_app; split); [apply failed_polls_dots|..];
      by repeat constructor.
Qed.

Lemma setup_creates_tasks_after_WiFi_witness :
  (WL_CONNECTED ∈ [WL_DISCONNECTED; WL_CONNECTED]) ∧
  ∃ evs, setup [WL_DISCONNECTED; WL_CONNECTED] = (true, evs ++ created_tasks) ∧
         Forall (λ e, is_task_create e = false) evs.
Proof.
  assert (Hin : WL_CONNECTED ∈ [WL_DISCONNECTED; WL_CONNECTED]).
  { apply elem_of_cons. right. apply elem_of_cons. by left. }
  split; [exact Hin|].
  exact (proj2 (setup_creates_tasks_after_WiFi [WL_DISCONNECTED; WL_CONNECTED]) Hin).
Defined.

(** ** What happens only while a flag is held *)

Lemma guarded_by_sound gate guarded evs : ∀ held,
  guarded_by gate guarded held evs = true →
  ∀ pre e post, evs = pre ++ e :: post → guarded e = true →
  gate_after gate held pre = true.
Proof.
  induction evs as [|e' evs IH]; intros held Hchk pre e post Heq Hguard.
  - by destruct pre.
  - cbn [guarded_by] in Hchk. apply andb_prop in Hchk as [Hhere Hrest].
    destruct pre as [|e'' pre]; cbn [app] in Heq; injection Heq as -> ->.
    + by rewrite Hguard in Hhere.
    + cbn [gate_after foldl]. by apply (IH _ Hrest pre e post).
Qed.

Lemma guarded_by_app gate guarded evs1 evs2 held :
  guarded_by gate guarded held (evs1 ++ evs2) =
  guarded_by gate guarded held evs1 &&
  guarded_by gate guarded (gate_after gate held evs1) evs2.
Proof.
  revert held. induction evs1 as [|e evs1 IH]; intros held; [done|].
  cbn [app guarded_by gate_after foldl]. rewrite IH. by rewrite andb_assoc.
Qed.

Lemma guarded_by_writes file chunks :
  guarded_by downloading_gate is_storage_write true
             (map (EvFileWrite file) chunks) = true ∧
  gate_after downloading_gate true (map (EvFileWrite file) chunks) = true.
Proof. induction chunks as [|c chunks [IH1 IH2]]; [done|]. by cbn. Qed.

Lemma fetch_run_guarded env w :
  guarded_by downloading_gate is_storage_write false
             (result_events (CheckAPIForUpdates env w)) = true.
Proof.
  cbv [CheckAPIForUpdates].
  run_cases; cbn [result_events]; try done.
  cbn [guarded_by downloading_gate is_storage_write default andb].
  rewrite <- !app_assoc, guarded_by_app. unfold id.
  destruct (guarded_by_writes "/update.bin"
              (stream_chunks (stream_arrivals env) (http_body env))) as [-> ->].
  done.
Qed.

(** X18. The fetch agent writes the card only while [is_downloading] is
    set: before each write-open, file write or removal in the trace of a
    run, the last assignment to [is_downloading] was [true]. *)
Theorem card_written_under_downloading_flag env w pre e post :
  result_events (CheckAPIForUpdates env w) = pre ++ e :: post →
  is_storage_write e = true →
  gate_after downloading_gate false pre = true.
Proof.
  intros Heq Hwrite.
  exact (guarded_by_sound _ _ _ false (fetch_run_guarded env w) pre e post Heq Hwrite).
Qed.

Lemma card_written_under_downloading_flag_witness :
  result_events (CheckAPIForUpdates env_ok (boot_world ∅)) =
    [EvPrintln "Checking for updates...";
     EvHttpBegin updateURL true; EvHttpGet 200;
     EvSetDownloading true; EvPrintln "Update found!";
     EvSdBegin 5 true; EvSdOpen "/update.bin" FILE_WRITE true;
     EvFileWrite "/update.bin" [x01; x02]]
    ++ EvFileWrite "/update.bin" [x03]
    :: [EvFileClose "/update.bin"; EvPrintln "File saved successfully.";
        EvHttpEnd; EvSetDownloading false] ∧
  is_storage_write (EvFileWrite "/update.bin" [x03]) = true ∧
  gate_after downloading_gate false
    [EvPrintln "Checking for updates...";
     EvHttpBegin updateURL true; EvHttpGet 200;
     EvSetDownloading true; EvPrintln "Update found!";
     EvSdBegin 5 true; EvSdOpen "/update.bin" FILE_WRITE true;
     EvFileWrite "/update.bin" [x01; x02]] = true.
Proof.
  assert (Heq : result_events (CheckAPIForUpdates env_ok (boot_world ∅)) =
    [EvPrintln "Checking for updates...";
     EvHttpBegin updateURL true; EvHttpGet 200;
     EvSetDownloading true; EvPrintln "Update found!";
     EvSdBegin 5 true; EvSdOpen "/update.bin" FILE_WRITE true;
     EvFileWrite "/update.bin" [x01; x02]]
    ++ EvFileWrite "/update.bin" [x03]
    :: [EvFileClose "/update.bin"; EvPrintln "File saved successfully.";
        EvHttpEnd; EvSetDownloading false]) by (by vm_compute).
  split; [exact Heq|]. split; [reflexivity|].
  exact (card_written_under_downloading_flag env_ok (boot_world ∅) _ _ _ Heq eq_refl).
Defined.

Lemma apply_run_guarded env w :
  guarded_by updating_gate is_flash_or_restart false
             (result_events (UpdateFirmwareFromSD env w)) = true.
Proof. cbv [UpdateFirmwareFromSD performUpdate]. by run_cases. Qed.

(** X19. The apply agent touches the flash only while [is_updating] is
    set: before each [Update] call and before the restart in the trace of
    a run, the last assignment to [is_updating] was [true]. *)
Theorem flash_touched_under_updating_flag env w pre e post :
  result_events (UpdateFirmwareFromSD env w) = pre ++ e :: post →
  is_flash_or_restart e = true →
  gate_after updating_gate false pre = true.
Proof.
  intros Heq Hflash.
  exact (guarded_by_sound _ _ _ false (apply_run_guarded env w) pre e post Heq Hflash).
Qed.

Lemma flash_touched_under_updating_flag_witness :
  result_events (UpdateFirmwareFromSD env_end_fails (boot_world staged_card)) =
    [EvSdBegin 5 true; EvSdOpen "/update.bin" FILE_READ true;
     EvSetUpdating true; EvPrintln "SD card initialized successfully.";
     EvPrintln "Try to start update"; EvUpdateBegin 3 true;
     EvUpdateWriteStream firmware 3; EvPrintln "Written : 3 successfully"]
    ++ EvUpdateEnd false
    :: [EvUpdateGetError 9; EvPrintln "Error Occurred. Error #: 9";
        EvFileClose "/update.bin"; EvSdRemove "/update.bin";
        EvSetUpdating false] ∧
  is_flash_or_restart (EvUpdateEnd false) = true ∧
  gate_after updating_gate false
    [EvSdBegin 5 true; EvSdOpen "/update.bin" FILE_READ true;
     EvSetUpdating true; EvPrintln "SD card initialized successfully.";
     EvPrintln "Try to start update"; EvUpdateBegin 3 true;
     EvUpdateWriteStream firmware 3; EvPrintln "Written : 3 successfully"] = true.
Proof.
  assert (Heq : result_events (UpdateFirmwareFromSD env_end_fails (boot_world staged_card)) =
    [EvSdBegin 5 true; EvSdOpen "/update.bin" FILE_READ true;
     EvSetUpdating true; EvPrintln "SD card initialized successfully.";
     EvPrintln "Try to start update"; EvUpdateBegin 3 true;
     EvUpdateWriteStream firmware 3; EvPrintln "Written : 3 successfully"]
    ++ EvUpdateEnd false
    :: [EvUpdateGetError 9; EvPrintln "Error Occurred. Error #: 9";
        EvFileClose "/update.bin"; EvSdRemove "/update.bin";
        EvSetUpdating false]) by (by vm_compute).
  split; [exact Heq|]. split; [reflexivity|].
  exact (flash_touched_under_updating_flag env_end_fails (boot_world staged_card)
           _ _ _ Heq eq_refl).
Defined.

(** ** The copy loop, whatever the network does *)

Lemma stream_chunks_length arrivals : ∀ stream,
  (length (stream_chunks arrivals stream) ≤ length stream)%nat.
Proof.
  induction arrivals as [|avail arrivals IH]; intros stream;
    cbn [stream_chunks readBytes]; [cbn; lia|].
  case_bool_decide as Hlen; cbn [length]; [|lia].
  rewrite length_take in Hlen.
  specialize (IH (drop (avail `min` bufferSize) stream)).
  rewrite length_drop in IH. unfold bufferSize in *. lia.
Qed.

(** X20. Whatever arrives and whenever, the copy loop returns: it writes
    a prefix of the stream, in chunks of 1 to 1024 bytes, with no more
    writes than the stream has bytes, and touches nothing but the file. *)
Theorem copy_loop_bounded file arrivals stream env w :
  ∃ chunks,
    copy_stream file arrivals stream env w =
      Returned ()
        (set_sd_card (alter (λ c, c ++ concat chunks) file (sd_card w)) w)
        (map (EvFileWrite file) chunks) ∧
    concat chunks `prefix_of` stream ∧
    (length chunks ≤ length stream)%nat ∧
    Forall (λ c, 0 < length c ≤ 1024) chunks.
Proof.
  exists (stream_chunks arrivals stream). split; [apply copy_stream_run|].
  split; [|split].
  - rewrite stream_chunks_concat. apply prefix_take.
  - apply stream_chunks_length.
  - apply stream_chunks_bounded.
Qed.
